(** * Lateral torque controller (selfdrive/controls/lib/latcontrol_torque.py)

    A shallow embedding of [LatControlTorque] and the properties of its
    per-tick [update].

    Python's [float] is IEEE 754 binary64, so scalars are Rocq's primitive
    floats: rounding, signed zeros, infinities and NaN behave as they do in the
    interpreter.  Python raises where IEEE arithmetic would return a special
    value (division by zero, overflow of [**], list index out of range); these
    are the constructors of [exn].  The controller object is mutated in place,
    so every method is a state transformer over [LatControlTorque], and a
    raised exception leaves the mutations made before it in place. *)

From Stdlib Require Import Bool List ZArith.
From Stdlib Require Import Floats.
Import ListNotations.

Set Warnings "-inexact-float".

(** ** Python scalars *)

Inductive exn : Type :=
| ZeroDivisionError
| OverflowError
| IndexError.

Inductive result (A : Type) : Type :=
| Ok (a : A)
| Raise (e : exn).
Arguments Ok {A} a.
Arguments Raise {A} e.

(** A method of an object of type [S]: it may mutate the object and either
    returns a value or raises. *)
Definition M (S A : Type) : Type := S -> S * result A.

Definition ret {S A : Type} (a : A) : M S A := fun s => (s, Ok a).

Definition bind {S A B : Type} (c : M S A) (k : A -> M S B) : M S B :=
  fun s =>
    match c s with
    | (s', Ok a) => k a s'
    | (s', Raise e) => (s', Raise e)
    end.

Definition get {S : Type} : M S S := fun s => (s, Ok s).

Definition modify {S : Type} (f : S -> S) : M S unit := fun s => (f s, Ok tt).

(** A pure computation that may raise, run inside a method. *)
Definition lift {S A : Type} (r : result A) : M S A := fun s => (s, r).

Declare Scope method_scope.
Delimit Scope method_scope with method.
Notation "x <- c ;; k" := (bind c (fun x => k))
  (at level 61, c at next level, right associativity) : method_scope.
Notation "c ;; k" := (bind c (fun _ => k))
  (at level 61, right associativity) : method_scope.

Module Py.

Local Open Scope float_scope.

(** [x / y] on floats: a zero divisor (of either sign) raises. *)
Definition truediv (x y : float) : result float :=
  if y =? 0 then Raise ZeroDivisionError else Ok (x / y).

(** [x ** 2] on a float, after CPython's [float_pow] with the exponent 2.0.
    NaN, the infinities, the zeros and [+-1.0] are settled by the interpreter
    itself; every other base goes, as its absolute value, to the C library's
    [pow], whose result is not necessarily the correctly rounded square and
    is a parameter here.  An infinite result is the range error that
    [float_pow] turns into [OverflowError]. *)
Definition pow2 (libm_pow : float -> float -> float) (x : float)
    : result float :=
  if is_nan x then Ok x
  else if is_infinity x then Ok (abs x)
  else if x =? 0 then Ok 0
  else let iv := if x <? 0 then - x else x in
       if iv =? 1 then Ok 1
       else let ix := libm_pow iv 2 in
            if is_infinity ix then Raise OverflowError else Ok ix.

(** [math.isclose(a, b)] with the default [rel_tol = 1e-09] and
    [abs_tol = 0.0]. *)
Definition rel_tol : float := 1e-09.
Definition abs_tol : float := 0.

Definition isclose (a b : float) : bool :=
  if a =? b then true
  else if is_infinity a || is_infinity b then false
  else let diff := abs (b - a) in
       (diff <=? abs (rel_tol * b))
       || (diff <=? abs (rel_tol * a))
       || (diff <=? abs_tol).

(** [math.radians(x)]: multiplication by the constant [pi / 180]. *)
Definition pi : float := 0x1.921fb54442d18p+1.
Definition degToRad : float := pi / 180.
Definition radians (x : float) : float := x * degToRad.

(** [l[n]] on a list. *)
Definition index {A : Type} (l : list A) (n : nat) : result A :=
  match nth_error l n with
  | Some a => Ok a
  | None => Raise IndexError
  end.

End Py.

(** ** common.numpy_fast *)

Module NumpyFast.

Local Open Scope float_scope.

(** Modelled from the spec: [common/numpy_fast.py] ([interp]) is not among
    the sources.  It "maps a scalar through a piecewise-linear breakpoint
    table with clamped extrapolation": at or below the first breakpoint the
    first value, at or above the last breakpoint the last value, and on a
    segment [xl < x < xh] the value [fl + (x - xl) / (xh - xl) * (fh - fl)];
    the spec fixes no order of operations for the segment. *)
Fixpoint interp_from (x xl fl : float) (xp fp : list float) : result float :=
  match xp, fp with
  | xh :: xp', fh :: fp' =>
      if xh <=? x then interp_from x xh fh xp' fp'
      else match Py.truediv (x - xl) (xh - xl) with
           | Ok q => Ok (fl + q * (fh - fl))
           | Raise e => Raise e
           end
  | _, _ => Ok fl
  end.

Definition interp (x : float) (xp fp : list float) : result float :=
  match xp, fp with
  | x0 :: xp', f0 :: fp' =>
      if x <=? x0 then Ok f0 else interp_from x x0 f0 xp' fp'
  | _, _ => Raise IndexError
  end.

End NumpyFast.

(** ** Messages read and written by the controller *)

(** [CP.lateralTuning.torque] and [CP.lateralTuningRight.torque]. *)
Module Torque.
Record t : Type := mk {
  kp : float;
  ki : float;
  kd : float;
  kf : float;
  friction : float;
  useSteeringAngle : bool
}.
End Torque.

Module LateralTuning.
Record t : Type := mk { torque : Torque.t }.
End LateralTuning.

(** [CP]: the live configuration; the controller only reads it. *)
Module CarParams.
Record t : Type := mk {
  lateralTuning : LateralTuning.t;
  lateralTuningRight : LateralTuning.t;
  lateralTuneSplit : bool
}.
End CarParams.

Module CarState.
Record t : Type := mk {
  vEgo : float;
  steeringAngleDeg : float;
  steeringPressed : bool;
  steeringRateLimited : bool
}.
End CarState.

Module LiveParameters.
Record t : Type := mk {
  angleOffsetDeg : float;
  roll : float
}.
End LiveParameters.

Module Measurement.
Record t : Type := mk { value : list float }.
End Measurement.

Module LiveLocationKalman.
Record t : Type := mk { angularVelocityCalibrated : Measurement.t }.
End LiveLocationKalman.

(** [log.ControlsState.LateralTorqueState]: the diagnostics record. *)
Module Log.
Record t : Type := mk {
  active : bool;
  usingRightTune : bool;
  error : float;
  p : float;
  i : float;
  d : float;
  f : float;
  output : float;
  saturated : bool;
  actualLateralAccel : float;
  desiredLateralAccel : float
}.

Definition new_message : t :=
  mk false false 0 0 0 0 0 0 false 0 0.

Definition set_active (v : bool) (l : t) : t :=
  mk v (usingRightTune l) (error l) (p l) (i l) (d l) (f l) (output l)
     (saturated l) (actualLateralAccel l) (desiredLateralAccel l).
Definition set_usingRightTune (v : bool) (l : t) : t :=
  mk (active l) v (error l) (p l) (i l) (d l) (f l) (output l)
     (saturated l) (actualLateralAccel l) (desiredLateralAccel l).
Definition set_error (v : float) (l : t) : t :=
  mk (active l) (usingRightTune l) v (p l) (i l) (d l) (f l) (output l)
     (saturated l) (actualLateralAccel l) (desiredLateralAccel l).
Definition set_p (v : float) (l : t) : t :=
  mk (active l) (usingRightTune l) (error l) v (i l) (d l) (f l) (output l)
     (saturated l) (actualLateralAccel l) (desiredLateralAccel l).
Definition set_i (v : float) (l : t) : t :=
  mk (active l) (usingRightTune l) (error l) (p l) v (d l) (f l) (output l)
     (saturated l) (actualLateralAccel l) (desiredLateralAccel l).
Definition set_d (v : float) (l : t) : t :=
  mk (active l) (usingRightTune l) (error l) (p l) (i l) v (f l) (output l)
     (saturated l) (actualLateralAccel l) (desiredLateralAccel l).
Definition set_f (v : float) (l : t) : t :=
  mk (active l) (usingRightTune l) (error l) (p l) (i l) (d l) v (output l)
     (saturated l) (actualLateralAccel l) (desiredLateralAccel l).
Definition set_output (v : float) (l : t) : t :=
  mk (active l) (usingRightTune l) (error l) (p l) (i l) (d l) (f l) v
     (saturated l) (actualLateralAccel l) (desiredLateralAccel l).
Definition set_saturated (v : bool) (l : t) : t :=
  mk (active l) (usingRightTune l) (error l) (p l) (i l) (d l) (f l)
     (output l) v (actualLateralAccel l) (desiredLateralAccel l).
Definition set_actualLateralAccel (v : float) (l : t) : t :=
  mk (active l) (usingRightTune l) (error l) (p l) (i l) (d l) (f l)
     (output l) (saturated l) v (desiredLateralAccel l).
Definition set_desiredLateralAccel (v : float) (l : t) : t :=
  mk (active l) (usingRightTune l) (error l) (p l) (i l) (d l) (f l)
     (output l) (saturated l) (actualLateralAccel l) v.
End Log.

(** ** The PID primitive *)

Module PID.

(** Modelled from the spec: [selfdrive/controls/lib/pid.py]
    ([PIDController]) is not among the sources.  The controller reads and
    writes its "live-mutable gain fields" [k_f], [_k_p[1][0]] and
    [_k_i[1][0]] (the single scheduled value of each gain, here [_k_p] and
    [_k_i]), configures it with [k_d] and the output limits, and reads the
    terms [p], [i], [d] and [f] after each update; [i] is the integral
    accumulator. *)
Record t : Type := mk {
  _k_p : float;
  _k_i : float;
  k_d : float;
  k_f : float;
  pos_limit : float;
  neg_limit : float;
  p : float;
  i : float;
  d : float;
  f : float
}.

(** Modelled from the spec: [reset()] "clears the PID accumulators"; the
    gains and the limits stay. *)
Definition reset (c : t) : t :=
  mk (_k_p c) (_k_i c) (k_d c) (k_f c) (pos_limit c) (neg_limit c) 0 0 0 0.

(** [PIDController(k_p, k_i, k_d=.., k_f=.., pos_limit=.., neg_limit=..)]. *)
Definition new (k_p k_i k_d k_f pos_limit neg_limit : float) : t :=
  reset (mk k_p k_i k_d k_f pos_limit neg_limit 0 0 0 0).

Definition set_k_f (v : float) (c : t) : t :=
  mk (_k_p c) (_k_i c) (k_d c) v (pos_limit c) (neg_limit c)
     (p c) (i c) (d c) (f c).
Definition set_k_p (v : float) (c : t) : t :=
  mk v (_k_i c) (k_d c) (k_f c) (pos_limit c) (neg_limit c)
     (p c) (i c) (d c) (f c).
Definition set_k_i (v : float) (c : t) : t :=
  mk (_k_p c) v (k_d c) (k_f c) (pos_limit c) (neg_limit c)
     (p c) (i c) (d c) (f c).

End PID.


(** ** LatControlTorque *)

Definition LOW_SPEED_FACTOR : float := 200.
Definition JERK_THRESHOLD : float := 0.2.

Section Controller.

Local Open Scope float_scope.
Local Open Scope method_scope.

(** What the sources import but do not contain: the base class [LatControl]
    with its saturation bookkeeping ([SatState], [_check_saturation],
    [reset]), the constants [MIN_STEER_SPEED] and
    [ACCELERATION_DUE_TO_GRAVITY], the vehicle model's [calc_curvature] and the
    PID primitive's [update].  They are parameters of the model; each is a
    total function, as the interface describes them. *)
Variable SatState : Type.
Variable VehicleModel : Type.
Variable Actuators : Type.

Variable MIN_STEER_SPEED : float.
Variable ACCELERATION_DUE_TO_GRAVITY : float.

Variable calc_curvature : VehicleModel -> float -> float -> float -> float.

(** [pid.update(error, override, feedforward, speed, freeze_integrator)]
    returns the PID object after the call and the control output. *)
Variable pid_update :
  PID.t -> float -> bool -> float -> float -> bool -> PID.t * float.

Variable LatControl_reset : SatState -> SatState.
Variable _check_saturation : SatState -> bool -> CarState.t -> SatState * bool.

(** The C library's [pow], behind [**] on floats. *)
Variable libm_pow : float -> float -> float.

(** The attributes of a [LatControlTorque] object.  [sat] and [steer_max] are
    those of the base class; [get_steer_feedforward] is stored by [__init__]
    and never read, and is left out. *)
Record LatControlTorque : Type := mkLatControlTorque {
  sat : SatState;
  steer_max : float;
  CP : CarParams.t;
  pid : PID.t;
  use_steering_angle : bool;
  friction : float;
  lateralTuneSplit : bool
}.

Definition set_sat (v : SatState) (self : LatControlTorque) :=
  mkLatControlTorque v (steer_max self) (CP self) (pid self)
    (use_steering_angle self) (friction self) (lateralTuneSplit self).
Definition set_CP (v : CarParams.t) (self : LatControlTorque) :=
  mkLatControlTorque (sat self) (steer_max self) v (pid self)
    (use_steering_angle self) (friction self) (lateralTuneSplit self).
Definition set_pid (v : PID.t) (self : LatControlTorque) :=
  mkLatControlTorque (sat self) (steer_max self) (CP self) v
    (use_steering_angle self) (friction self) (lateralTuneSplit self).
Definition set_use_steering_angle (v : bool) (self : LatControlTorque) :=
  mkLatControlTorque (sat self) (steer_max self) (CP self) (pid self)
    v (friction self) (lateralTuneSplit self).
Definition set_friction (v : float) (self : LatControlTorque) :=
  mkLatControlTorque (sat self) (steer_max self) (CP self) (pid self)
    (use_steering_angle self) v (lateralTuneSplit self).
Definition set_lateralTuneSplit (v : bool) (self : LatControlTorque) :=
  mkLatControlTorque (sat self) (steer_max self) (CP self) (pid self)
    (use_steering_angle self) (friction self) v.

(** [__init__], given what [super().__init__] leaves in the base attributes. *)
Definition __init__ (base : SatState) (base_steer_max : float)
    (CP : CarParams.t) : LatControlTorque :=
  let tune := LateralTuning.torque (CarParams.lateralTuning CP) in
  mkLatControlTorque base base_steer_max CP
    (PID.new (Torque.kp tune) (Torque.ki tune) (Torque.kd tune)
       (Torque.kf tune) base_steer_max (- base_steer_max))
    (Torque.useSteeringAngle tune)
    (Torque.friction tune)
    (CarParams.lateralTuneSplit CP).

Definition reset (self : LatControlTorque) : LatControlTorque :=
  let self := set_sat (LatControl_reset (sat self)) self in
  set_pid (PID.reset (pid self)) self.

(** [detectChange] and [detectChangeRight] differ in the tuning set they read;
    [resync tune] is their common body. *)
Definition resync (tune : Torque.t) (self : LatControlTorque)
    : LatControlTorque :=
  let self :=
    if negb (Py.isclose (PID.k_f (pid self)) (Torque.kf tune))
    then set_pid (PID.set_k_f (Torque.kf tune) (pid self)) self
    else self in
  let self :=
    if negb (Py.isclose (PID._k_p (pid self)) (Torque.kp tune))
    then set_pid (PID.set_k_p (Torque.kp tune) (pid self)) self
    else self in
  let self :=
    if negb (Py.isclose (PID._k_i (pid self)) (Torque.ki tune))
    then set_pid (PID.set_k_i (Torque.ki tune) (pid self)) self
    else self in
  let self :=
    if negb (Bool.eqb (use_steering_angle self) (Torque.useSteeringAngle tune))
    then set_use_steering_angle (Torque.useSteeringAngle tune) self
    else self in
  let self :=
    if negb (Py.isclose (friction self) (Torque.friction tune))
    then set_friction (Torque.friction tune) self
    else self in
  self.

Definition detectChange (self : LatControlTorque) : LatControlTorque :=
  resync (LateralTuning.torque (CarParams.lateralTuning (CP self))) self.

Definition detectChangeRight (self : LatControlTorque) : LatControlTorque :=
  resync (LateralTuning.torque (CarParams.lateralTuningRight (CP self))) self.

Definition update (active : bool) (CS : CarState.t) (VM : VehicleModel)
    (params : LiveParameters.t) (last_actuators : Actuators)
    (desired_curvature desired_curvature_rate : float)
    (llk : LiveLocationKalman.t)
    : M LatControlTorque (float * float * Log.t) :=
  let pid_log := Log.new_message in
  let pid_log := Log.set_usingRightTune false pid_log in
  if (CarState.vEgo CS <? MIN_STEER_SPEED) || negb active then
    let output_torque := 0 in
    let pid_log := Log.set_active false pid_log in
    (if negb active
     then modify (fun self => set_pid (PID.reset (pid self)) self)
     else ret tt) ;;
    ret (- output_torque, 0, pid_log)
  else
    self <- get ;;
    actual_curvature <-
      (if use_steering_angle self
       then ret (- calc_curvature VM
                     (Py.radians (CarState.steeringAngleDeg CS
                                  - LiveParameters.angleOffsetDeg params))
                     (CarState.vEgo CS) (LiveParameters.roll params))
       else
         yaw_rate <- lift (Py.index
                             (Measurement.value
                                (LiveLocationKalman.angularVelocityCalibrated
                                   llk)) 2) ;;
         lift (Py.truediv yaw_rate (CarState.vEgo CS))) ;;
    vEgo_sq <- lift (Py.pow2 libm_pow (CarState.vEgo CS)) ;;
    let desired_lateral_accel := desired_curvature * vEgo_sq in
    vEgo_sq <- lift (Py.pow2 libm_pow (CarState.vEgo CS)) ;;
    let desired_lateral_jerk := desired_curvature_rate * vEgo_sq in
    vEgo_sq <- lift (Py.pow2 libm_pow (CarState.vEgo CS)) ;;
    let actual_lateral_accel := actual_curvature * vEgo_sq in

    let LR_SPLIT_PT := 0.0002 in

    self <- get ;;
    (if negb (Bool.eqb (lateralTuneSplit self)
                (CarParams.lateralTuneSplit (CP self)))
     then
       (if negb (CarParams.lateralTuneSplit (CP self))
        then modify detectChange
        else ret tt) ;;
       modify (fun self =>
                 set_lateralTuneSplit (CarParams.lateralTuneSplit (CP self))
                   self)
     else ret tt) ;;

    self <- get ;;
    pid_log <-
      (if CarParams.lateralTuneSplit (CP self)
       then
         let curve_is_right := LR_SPLIT_PT <=? desired_curvature in
         let pid_log := Log.set_usingRightTune curve_is_right pid_log in
         (if curve_is_right
          then modify detectChangeRight
          else modify detectChange) ;;
         ret pid_log
       else ret pid_log) ;;

    let setpoint := desired_lateral_accel
                    + LOW_SPEED_FACTOR * desired_curvature in
    let measurement := actual_lateral_accel
                       + LOW_SPEED_FACTOR * actual_curvature in
    let error := setpoint - measurement in
    let pid_log := Log.set_error error pid_log in

    let ff := desired_lateral_accel
              - LiveParameters.roll params * ACCELERATION_DUE_TO_GRAVITY in
    self <- get ;;
    friction_compensation <-
      lift (NumpyFast.interp desired_lateral_jerk
              [- JERK_THRESHOLD; JERK_THRESHOLD]
              [- friction self; friction self]) ;;
    ff_friction <-
      lift (Py.truediv friction_compensation
              (Torque.kf (LateralTuning.torque
                            (CarParams.lateralTuning (CP self))))) ;;
    let ff := ff + ff_friction in
    let '(pid', output_torque) :=
      pid_update (pid self) error (CarState.steeringPressed CS) ff
        (CarState.vEgo CS) (CarState.steeringRateLimited CS) in
    modify (set_pid pid') ;;

    let pid_log := Log.set_active true pid_log in
    let pid_log := Log.set_p (PID.p pid') pid_log in
    let pid_log := Log.set_i (PID.i pid') pid_log in
    let pid_log := Log.set_d (PID.d pid') pid_log in
    let pid_log := Log.set_f (PID.f pid') pid_log in
    let pid_log := Log.set_output (- output_torque) pid_log in
    self <- get ;;
    let '(sat', saturated) :=
      _check_saturation (sat self)
        (steer_max self - abs output_torque <? 1e-3) CS in
    modify (set_sat sat') ;;
    let pid_log := Log.set_saturated saturated pid_log in
    let pid_log := Log.set_actualLateralAccel actual_lateral_accel pid_log in
    let pid_log := Log.set_desiredLateralAccel desired_lateral_accel pid_log in

    ret (- output_torque, 0, pid_log).

End Controller.

Arguments sat {SatState} _.
Arguments steer_max {SatState} _.
Arguments CP {SatState} _.
Arguments pid {SatState} _.
Arguments use_steering_angle {SatState} _.
Arguments friction {SatState} _.
Arguments lateralTuneSplit {SatState} _.
Arguments mkLatControlTorque {SatState} _ _ _ _ _ _ _.
Arguments set_sat {SatState} _ _.
Arguments set_CP {SatState} _ _.
Arguments set_pid {SatState} _ _.
Arguments set_use_steering_angle {SatState} _ _.
Arguments set_friction {SatState} _ _.
Arguments set_lateralTuneSplit {SatState} _ _.
Arguments __init__ {SatState} _ _ _.
Arguments resync {SatState} _ _.
Arguments detectChange {SatState} _.
Arguments detectChangeRight {SatState} _.
Arguments update {SatState VehicleModel Actuators}
  _ _ _ _ _ _ _ _ _ _ _ _ _ _ _.

(** ** A test bench

    Concrete collaborators on which the controller can be run: the constants
    as the callers define them, a kinematic curvature model, a clamped
    proportional-integral step with feedforward for the PID primitive, and a
    saturation check without debouncing. *)

Module Bench.

Local Open Scope float_scope.

Definition MIN_STEER_SPEED : float := 0.3.
Definition ACCELERATION_DUE_TO_GRAVITY : float := 9.8.

Definition calc_curvature (wheelbase sa u roll : float) : float :=
  sa / wheelbase.

Definition clip (x lo hi : float) : float :=
  if (lo <=? x) && (x <=? hi) then x
  else if x <? lo then lo else hi.

Definition pid_update (c : PID.t) (error : float) (override : bool)
    (feedforward speed : float) (freeze_integrator : bool)
    : PID.t * float :=
  let p := error * PID._k_p c in
  let f := feedforward * PID.k_f c in
  let i := if override || freeze_integrator then PID.i c
           else PID.i c + error * PID._k_i c * 0.01 in
  let control := clip (p + i + f) (PID.neg_limit c) (PID.pos_limit c) in
  (PID.mk (PID._k_p c) (PID._k_i c) (PID.k_d c) (PID.k_f c)
     (PID.pos_limit c) (PID.neg_limit c) p i 0 f,
   control).

Definition _check_saturation (count : nat) (saturated : bool)
    (CS : CarState.t) : nat * bool :=
  (if saturated then S count else 0%nat, saturated).

(** A [pow] that is correctly rounded at the exponent 2, the only one
    [update] asks for. *)
Definition libm_pow (x y : float) : float :=
  if y =? 2 then x * x else nan.

Definition step :=
  update (Actuators := unit) MIN_STEER_SPEED ACCELERATION_DUE_TO_GRAVITY
    calc_curvature pid_update _check_saturation libm_pow.

(** PID primitives that hand back an argument they were given, to observe
    what [update] passes. *)
Definition echo_error (c : PID.t) (error : float) (override : bool)
    (feedforward speed : float) (freeze_integrator : bool)
    : PID.t * float :=
  (c, error).

Definition echo_feedforward (c : PID.t) (error : float) (override : bool)
    (feedforward speed : float) (freeze_integrator : bool)
    : PID.t * float :=
  (c, feedforward).

Definition probe
    (pid_update :
       PID.t -> float -> bool -> float -> float -> bool -> PID.t * float) :=
  update (Actuators := unit) MIN_STEER_SPEED ACCELERATION_DUE_TO_GRAVITY
    calc_curvature pid_update _check_saturation libm_pow
    true (CarState.mk 20 0 false false) 2.7 (LiveParameters.mk 0 0) tt.

(** A default and a right-turn tuning set that differ in every gain. *)
Definition tune : Torque.t := Torque.mk 1 0.1 0 1 0.1 false.
Definition tune_right : Torque.t := Torque.mk 2 0.2 0 2 0.5 false.

Definition car_params (split : bool) : CarParams.t :=
  CarParams.mk (LateralTuning.mk tune) (LateralTuning.mk tune_right) split.

(** The controller as constructed, and after some driving: an integral
    term has built up. *)
Definition fresh (split : bool) : LatControlTorque nat :=
  __init__ 0%nat 1 (car_params split).

Definition driven (split : bool) : LatControlTorque nat :=
  set_pid (PID.mk 1 0.1 0 1 1 (-1) 0.25 0.125 0 0.5) (fresh split).

(** The configuration is retuned while driving: the default set now holds
    other gains than the ones the controller was constructed with. *)
Definition retuned : LatControlTorque nat :=
  set_CP (CarParams.mk (LateralTuning.mk tune_right)
            (LateralTuning.mk tune_right) false)
    (driven false).

(** The same with split tune just switched off in the configuration. *)
Definition switched_off : LatControlTorque nat :=
  set_lateralTuneSplit true retuned.

(** A configuration whose default feedforward gain is zero. *)
Definition zero_kf : LatControlTorque nat :=
  set_CP (CarParams.mk (LateralTuning.mk (Torque.mk 1 0.1 0 0 0.1 false))
            (LateralTuning.mk tune_right) false)
    (driven false).

Definition CS (vEgo : float) : CarState.t := CarState.mk vEgo 0 false false.
Definition params : LiveParameters.t := LiveParameters.mk 0 0.
Definition llk (yaw_rate : float) : LiveLocationKalman.t :=
  LiveLocationKalman.mk (Measurement.mk [0; 0; yaw_rate]).

(** Ticks at 20 m/s with a yaw rate of 0.01 rad/s. *)
Definition cruise (desired_curvature desired_curvature_rate : float)
    (self : LatControlTorque nat) :=
  step true (CS 20) 2.7 params tt desired_curvature desired_curvature_rate
    (llk 0.01) self.

(** A tick below the speed floor, and a tick of a disengaged controller. *)
Definition crawl (active : bool) (self : LatControlTorque nat) :=
  step active (CS 0.1) 2.7 params tt 0.001 0 (llk 0) self.

Definition disengaged (self : LatControlTorque nat) :=
  step false (CS 20) 2.7 params tt 0.001 0 (llk 0.01) self.

(** Split tune is on and both sets now ask for the steering angle, while
    the controller still has the yaw-rate flag cached. *)
Definition tune_angle : Torque.t := Torque.mk 1 0.1 0 1 0.1 true.

Definition angle_retuned : LatControlTorque nat :=
  set_CP (CarParams.mk (LateralTuning.mk tune_angle)
            (LateralTuning.mk tune_angle) true)
    (driven true).

End Bench.

(** ** The blocks of [update]

    The statements below name the intermediate values of an active tick:
    the measured curvature (the [if self.use_steering_angle] block), the
    tuning selection (the two [if] blocks on [lateralTuneSplit]), the closed
    form of [interp] on the jerk table and the diagnostics record as it is
    filled in.  [update_active_eq] proves that [update] computes exactly
    these. *)

Section Views.

Local Open Scope float_scope.

Variable SatState : Type.
Variable VehicleModel : Type.
Variable calc_curvature : VehicleModel -> float -> float -> float -> float.

Definition measured_curvature (self : LatControlTorque SatState)
    (CS : CarState.t) (VM : VehicleModel) (params : LiveParameters.t)
    (llk : LiveLocationKalman.t) : result float :=
  if use_steering_angle self
  then Ok (- calc_curvature VM
               (Py.radians (CarState.steeringAngleDeg CS
                            - LiveParameters.angleOffsetDeg params))
               (CarState.vEgo CS) (LiveParameters.roll params))
  else
    match Py.index
            (Measurement.value
               (LiveLocationKalman.angularVelocityCalibrated llk)) 2 with
    | Ok yaw_rate => Py.truediv yaw_rate (CarState.vEgo CS)
    | Raise e => Raise e
    end.

(** The controller after the tuning selection, and [usingRightTune]. *)
Definition select_tune (self : LatControlTorque SatState)
    (desired_curvature : float) : LatControlTorque SatState * bool :=
  let self :=
    if negb (Bool.eqb (lateralTuneSplit self)
               (CarParams.lateralTuneSplit (CP self)))
    then
      let self := if negb (CarParams.lateralTuneSplit (CP self))
                  then detectChange self else self in
      set_lateralTuneSplit (CarParams.lateralTuneSplit (CP self)) self
    else self in
  if CarParams.lateralTuneSplit (CP self)
  then
    let curve_is_right := 0.0002 <=? desired_curvature in
    (if curve_is_right then detectChangeRight self else detectChange self,
     curve_is_right)
  else (self, false).

End Views.

Arguments measured_curvature {SatState VehicleModel} _ _ _ _ _ _.
Arguments select_tune {SatState} _ _.

Section Shapes.

Local Open Scope float_scope.

(** [interp(jerk, [-JERK_THRESHOLD, JERK_THRESHOLD], [-fr, fr])]. *)
Definition friction_ramp (jerk fr : float) : float :=
  if jerk <=? - JERK_THRESHOLD then - fr
  else if JERK_THRESHOLD <=? jerk then fr
  else - fr + (jerk - - JERK_THRESHOLD)
              / (JERK_THRESHOLD - - JERK_THRESHOLD) * (fr - - fr).

(** [pid_log] at the end of an active tick. *)
Definition active_log (usingRightTune : bool) (error : float) (c : PID.t)
    (output_torque : float) (saturated : bool)
    (actual_lateral_accel desired_lateral_accel : float) : Log.t :=
  Log.mk true usingRightTune error (PID.p c) (PID.i c) (PID.d c) (PID.f c)
    (- output_torque) saturated actual_lateral_accel desired_lateral_accel.

(** [pid_log] at the end of a tick below the speed floor or not active. *)
Definition idle_log : Log.t :=
  Log.set_active false (Log.set_usingRightTune false Log.new_message).

(** A live value agrees with the configured one as far as [resync] can
    tell: it was overwritten, or [math.isclose] accepted it. *)
Definition synced (live cfg : float) : Prop :=
  live = cfg \/ Py.isclose live cfg = true.

(** The live gains and cached tuning fields agree with a tuning set. *)
Definition tuned_to (tune : Torque.t) (c : PID.t) (fr : float)
    (angle : bool) : Prop :=
  synced (PID.k_f c) (Torque.kf tune)
  /\ synced (PID._k_p c) (Torque.kp tune)
  /\ synced (PID._k_i c) (Torque.ki tune)
  /\ synced fr (Torque.friction tune)
  /\ angle = Torque.useSteeringAngle tune.

(** The accumulators of two PID objects are the same. *)
Definition same_accumulators (c c' : PID.t) : Prop :=
  PID.p c' = PID.p c /\ PID.i c' = PID.i c
  /\ PID.d c' = PID.d c /\ PID.f c' = PID.f c.

(** [update] ran the PID primitive on the object [c] with these arguments,
    kept the object it left as [c'] and returned [t], the output negated. *)
Definition pid_called
    (pid_update :
       PID.t -> float -> bool -> float -> float -> bool -> PID.t * float)
    (c : PID.t) (error : float) (override : bool)
    (feedforward speed : float) (freeze_integrator : bool)
    (c' : PID.t) (t : float) : Prop :=
  c' = fst (pid_update c error override feedforward speed freeze_integrator)
  /\ t = - snd (pid_update c error override feedforward speed
                  freeze_integrator).

(** The PID limits are the ones [__init__] configures. *)
Definition limits_configured {SatState : Type}
    (self : LatControlTorque SatState) : Prop :=
  PID.pos_limit (pid self) = steer_max self
  /\ PID.neg_limit (pid self) = - steer_max self.

End Shapes.

Section Frames.

(** What [detectChange] and [detectChangeRight] leave alone: everything but
    the three live gains, the cached friction and the cached steering-angle
    flag. *)
Definition tuning_only_written {SatState : Type}
    (self self' : LatControlTorque SatState) : Prop :=
  sat self' = sat self
  /\ steer_max self' = steer_max self
  /\ CP self' = CP self
  /\ lateralTuneSplit self' = lateralTuneSplit self
  /\ PID.k_d (pid self') = PID.k_d (pid self)
  /\ PID.pos_limit (pid self') = PID.pos_limit (pid self)
  /\ PID.neg_limit (pid self') = PID.neg_limit (pid self)
  /\ same_accumulators (pid self) (pid self').

(** One field of the resync: the live value stays when [math.isclose]
    accepts it against the configured one, and is overwritten otherwise. *)
Definition settle (live cfg : float) : float :=
  if Py.isclose live cfg then live else cfg.

End Frames.

(** ** Facts about binary64 comparisons

    Proved on the specification of the primitive operations
    ([FloatAxioms]) by case analysis on the decoded operands. *)

Section FloatFacts.

Local Open Scope float_scope.

Lemma Prim2SF_zero : Prim2SF 0 = S754_zero false.
Proof. reflexivity. Qed.

Lemma SFcompare_finite_flip (m1 m2 : positive) (e1 e2 : Z) :
  SFcompare (S754_finite false m1 e1) (S754_finite false m2 e2)
  = SFcompare (S754_finite true m2 e2) (S754_finite true m1 e1).
Proof.
  cbn. f_equal.
  rewrite (Z.compare_antisym e1 e2).
  destruct (e1 ?= e2)%Z; cbn; try reflexivity.
  change (Pos.compare_cont Eq m2 m1) with (Pos.compare m2 m1).
  change (Pos.compare_cont Eq m1 m2) with (Pos.compare m1 m2).
  rewrite (Pos.compare_antisym m1 m2).
  destruct (m1 ?= m2)%positive; reflexivity.
Qed.

Lemma SFleb_abs_opp (o s : spec_float) :
  SFleb (SFopp s) o && SFleb o s = true ->
  SFleb (SFabs (SFopp o)) s = true.
Proof.
  destruct s as [ss|ss| |ss ms es], o as [so|so| |so mo eo];
    try destruct ss; try destruct so;
    try (cbn; try reflexivity; discriminate);
    try (cbn; rewrite ?andb_true_r; intros H; exact H).
  - cbn [SFopp SFabs negb]. intros H.
    apply andb_prop in H. exact (proj2 H).
  - cbn [SFopp SFabs negb]. unfold SFleb.
    rewrite (SFcompare_finite_flip mo ms eo es). intros H.
    apply andb_prop in H. exact (proj1 H).
Qed.

Lemma SFleb_zero_of_range (o s : spec_float) :
  SFleb (SFopp s) o && SFleb o s = true ->
  SFleb (S754_zero false) s = true.
Proof.
  destruct s as [ss|ss| |ss ms es], o as [so|so| |so mo eo];
    try destruct ss; try destruct so;
    cbn; try reflexivity; try discriminate;
    rewrite ?andb_false_r; try discriminate.
Qed.

(** A value within [[-s, s]] has magnitude at most [s], and so has its
    opposite. *)
Lemma leb_abs_opp (o s : float) :
  (- s <=? o) && (o <=? s) = true -> (abs (- o) <=? s) = true.
Proof.
  rewrite !leb_spec, abs_spec, !opp_spec. apply SFleb_abs_opp.
Qed.

Lemma leb_zero_of_range (o s : float) :
  (- s <=? o) && (o <=? s) = true -> (0 <=? s) = true.
Proof.
  rewrite !leb_spec, opp_spec, Prim2SF_zero. apply SFleb_zero_of_range.
Qed.

(** A zero of either sign lies below every positive bound. *)
Lemma eqb_zero_ltb (v m : float) :
  (0 <? m) = true -> (v =? 0) = true -> (v <? m) = true.
Proof.
  rewrite eqb_spec, !ltb_spec, Prim2SF_zero.
  destruct (Prim2SF v) as [sv|sv| |sv mv ev], (Prim2SF m) as [sm|sm| |sm mm em];
    try destruct sv; try destruct sm; cbn; congruence.
Qed.

Lemma not_below_nonzero (v m : float) :
  (0 <? m) = true -> (v <? m) = false -> (v =? 0) = false.
Proof.
  intros Hm Hv. destruct (v =? 0) eqn:E; [|reflexivity].
  rewrite (eqb_zero_ltb v m Hm E) in Hv. discriminate Hv.
Qed.

End FloatFacts.

(** ** NaN operands *)

Section FloatNaN.

Local Open Scope float_scope.

Lemma is_nan_Prim2SF (x : float) : is_nan x = true -> Prim2SF x = S754_nan.
Proof. intros H. unfold Prim2SF. rewrite H. reflexivity. Qed.

Lemma Prim2SF_nan_is_nan (x : float) :
  Prim2SF x = S754_nan -> is_nan x = true.
Proof. intros H. rewrite <- (SF2Prim_Prim2SF x), H. reflexivity. Qed.

Lemma mul_nan_r (x y : float) : is_nan y = true -> is_nan (x * y) = true.
Proof.
  intros H. apply Prim2SF_nan_is_nan.
  rewrite mul_spec, (is_nan_Prim2SF y H).
  destruct (Prim2SF x); reflexivity.
Qed.

Lemma add_nan_l (x y : float) : is_nan x = true -> is_nan (x + y) = true.
Proof.
  intros H. apply Prim2SF_nan_is_nan.
  rewrite add_spec, (is_nan_Prim2SF x H). reflexivity.
Qed.

Lemma sub_nan_l (x y : float) : is_nan x = true -> is_nan (x - y) = true.
Proof.
  intros H. apply Prim2SF_nan_is_nan.
  rewrite sub_spec, (is_nan_Prim2SF x H). reflexivity.
Qed.

(** No comparison holds of a NaN. *)
Lemma nan_not_below (x m : float) : is_nan x = true -> (x <? m) = false.
Proof.
  intros H. rewrite ltb_spec, (is_nan_Prim2SF x H). reflexivity.
Qed.

(** A value and its opposite have the same magnitude. *)
Lemma abs_opp (x : float) : abs (- x) = abs x.
Proof.
  apply Prim2SF_inj. rewrite !abs_spec, opp_spec.
  destruct (Prim2SF x); reflexivity.
Qed.

End FloatNaN.
(** ** Properties of the controller *)

Section Resync.

Local Open Scope float_scope.

Variable SatState : Type.
Implicit Type self : LatControlTorque SatState.

Ltac resync_cases :=
  unfold resync;
  repeat match goal with
         | |- context [if negb ?b then _ else _] => destruct b; cbn [negb]
         end.

Lemma CP_resync tune self : CP (resync tune self) = CP self.
Proof. resync_cases; reflexivity. Qed.

Lemma sat_resync tune self : sat (resync tune self) = sat self.
Proof. resync_cases; reflexivity. Qed.

Lemma steer_max_resync tune self :
  steer_max (resync tune self) = steer_max self.
Proof. resync_cases; reflexivity. Qed.

Lemma lateralTuneSplit_resync tune self :
  lateralTuneSplit (resync tune self) = lateralTuneSplit self.
Proof. resync_cases; reflexivity. Qed.

Lemma limits_resync tune self :
  PID.pos_limit (pid (resync tune self)) = PID.pos_limit (pid self)
  /\ PID.neg_limit (pid (resync tune self)) = PID.neg_limit (pid self).
Proof. resync_cases; split; reflexivity. Qed.

(** [resync] writes gains only: the accumulators are as they were. *)
Lemma accumulators_resync tune self :
  same_accumulators (pid self) (pid (resync tune self)).
Proof. resync_cases; repeat split; reflexivity. Qed.

(** The cached friction after [resync] depends on the two frictions only. *)
Lemma friction_resync tune self :
  friction (resync tune self)
  = if Py.isclose (friction self) (Torque.friction tune)
    then friction self else Torque.friction tune.
Proof.
  unfold resync.
  repeat match goal with
         | |- context [if negb (Py.isclose (PID.k_f ?c) ?x) then _ else _] =>
             destruct (Py.isclose (PID.k_f c) x); cbn [negb]
         | |- context [if negb (Py.isclose (PID._k_p ?c) ?x) then _ else _] =>
             destruct (Py.isclose (PID._k_p c) x); cbn [negb]
         | |- context [if negb (Py.isclose (PID._k_i ?c) ?x) then _ else _] =>
             destruct (Py.isclose (PID._k_i c) x); cbn [negb]
         | |- context [if negb (Bool.eqb ?a ?b) then _ else _] =>
             destruct (Bool.eqb a b); cbn [negb]
         end;
    cbn [friction set_pid set_use_steering_angle];
    destruct (Py.isclose (friction self) (Torque.friction tune));
    reflexivity.
Qed.

(** After [resync] every tuning field agrees with the tuning set. *)
Lemma resync_tuned_to tune self :
  tuned_to tune (pid (resync tune self)) (friction (resync tune self))
    (use_steering_angle (resync tune self)).
Proof.
  unfold tuned_to, synced, resync.
  destruct (Py.isclose (PID.k_f (pid self)) (Torque.kf tune)) eqn:Ef;
    cbn [negb];
    (destruct (Py.isclose (PID._k_p _) (Torque.kp tune)) eqn:Ep; cbn [negb]);
    (destruct (Py.isclose (PID._k_i _) (Torque.ki tune)) eqn:Ei; cbn [negb]);
    (destruct (Bool.eqb _ (Torque.useSteeringAngle tune)) eqn:Ea; cbn [negb]);
    (destruct (Py.isclose (friction _) (Torque.friction tune)) eqn:Er;
     cbn [negb]);
    cbn in *;
    repeat split; auto using eqb_prop.
Qed.

(** *** The resync on its own *)

Lemma k_d_resync tune self :
  PID.k_d (pid (resync tune self)) = PID.k_d (pid self).
Proof. resync_cases; reflexivity. Qed.

Lemma resync_tuning_only tune self :
  tuning_only_written self (resync tune self).
Proof.
  unfold tuning_only_written.
  rewrite sat_resync, steer_max_resync, CP_resync, lateralTuneSplit_resync,
    k_d_resync.
  destruct (limits_resync tune self) as [-> ->].
  repeat split; apply accumulators_resync.
Qed.

Lemma settle_idempotent (live cfg : float) :
  settle (settle live cfg) cfg = settle live cfg.
Proof.
  unfold settle. destruct (Py.isclose live cfg) eqn:E.
  - rewrite E. reflexivity.
  - destruct (Py.isclose cfg cfg); reflexivity.
Qed.

(** [resync] field by field. *)
Lemma resync_fields tune self :
  resync tune self
  = mkLatControlTorque (sat self) (steer_max self) (CP self)
      (PID.mk (settle (PID._k_p (pid self)) (Torque.kp tune))
         (settle (PID._k_i (pid self)) (Torque.ki tune))
         (PID.k_d (pid self))
         (settle (PID.k_f (pid self)) (Torque.kf tune))
         (PID.pos_limit (pid self)) (PID.neg_limit (pid self))
         (PID.p (pid self)) (PID.i (pid self)) (PID.d (pid self))
         (PID.f (pid self)))
      (Torque.useSteeringAngle tune)
      (settle (friction self) (Torque.friction tune))
      (lateralTuneSplit self).
Proof.
  destruct self as [sa sm cp [kp ki kd kf pl nl p i d f] ang fr spl].
  unfold resync, settle.
  cbn [pid PID.k_f].
  destruct (Py.isclose kf (Torque.kf tune)); cbn [negb];
    cbn [pid set_pid PID._k_p PID.set_k_f];
    (destruct (Py.isclose kp (Torque.kp tune)); cbn [negb]);
    cbn [pid set_pid PID._k_i PID.set_k_f PID.set_k_p];
    (destruct (Py.isclose ki (Torque.ki tune)); cbn [negb]);
    cbn [use_steering_angle set_pid];
    (destruct ang, (Torque.useSteeringAngle tune); cbn [negb Bool.eqb]);
    cbn [friction set_pid set_use_steering_angle];
    (destruct (Py.isclose fr (Torque.friction tune)); cbn [negb]);
    reflexivity.
Qed.

Lemma resync_idempotent tune self :
  resync tune (resync tune self) = resync tune self.
Proof.
  rewrite (resync_fields tune (resync tune self)).
  rewrite (resync_fields tune self).
  cbn [sat steer_max CP pid friction lateralTuneSplit PID._k_p PID._k_i
         PID.k_d PID.k_f PID.pos_limit PID.neg_limit PID.p PID.i PID.d
         PID.f].
  rewrite !settle_idempotent. reflexivity.
Qed.

(** X1.  Running [detectChange] or [detectChangeRight] a second time changes
    nothing: whatever the first run wrote or accepted within tolerance, the
    second run leaves in place. *)
Theorem detectChange_idempotent self :
  detectChange (detectChange self) = detectChange self
  /\ detectChangeRight (detectChangeRight self) = detectChangeRight self.
Proof.
  unfold detectChange, detectChangeRight. rewrite !CP_resync.
  split; apply resync_idempotent.
Qed.

(** X2.  [detectChange] and [detectChangeRight] write the live gains [k_f],
    [_k_p[1][0]], [_k_i[1][0]] and the cached friction and steering-angle
    flag, and nothing else: the derivative gain [k_d], the output limits, the
    PID accumulators, the configuration, the cached split flag and the
    base-class attributes are as they were. *)
Theorem detectChange_writes_tuning_only self :
  tuning_only_written self (detectChange self)
  /\ tuning_only_written self (detectChangeRight self).
Proof. split; apply resync_tuning_only. Qed.

(** X3.  A controller fresh from [__init__] is in sync with the default
    tuning set: [detectChange] leaves it exactly as constructed, for every
    configuration (NaN gains included). *)
Theorem init_in_sync (base : SatState) (base_steer_max : float)
    (cp : CarParams.t) :
  detectChange (__init__ base base_steer_max cp)
  = __init__ base base_steer_max cp.
Proof.
  unfold detectChange, __init__, PID.new, PID.reset.
  cbn [CP]. unfold resync.
  repeat match goal with
         | |- context [if negb ?b then _ else _] =>
             destruct b;
             cbn [negb pid friction use_steering_angle set_pid set_friction
                    set_use_steering_angle sat steer_max CP lateralTuneSplit
                    PID.k_f PID._k_p PID._k_i PID.k_d PID.pos_limit
                    PID.neg_limit PID.p PID.i PID.d PID.f PID.set_k_f
                    PID.set_k_p PID.set_k_i]
         end;
    reflexivity.
Qed.

End Resync.

Section Interp.

Local Open Scope float_scope.

Lemma jerk_span_nonzero :
  (JERK_THRESHOLD - - JERK_THRESHOLD =? 0) = false.
Proof. reflexivity. Qed.

(** On the jerk table [interp] never raises; [friction_ramp] is its value. *)
Lemma interp_jerk (jerk fr : float) :
  NumpyFast.interp jerk [- JERK_THRESHOLD; JERK_THRESHOLD] [- fr; fr]
  = Ok (friction_ramp jerk fr).
Proof.
  unfold NumpyFast.interp, NumpyFast.interp_from, friction_ramp, Py.truediv.
  rewrite jerk_span_nonzero.
  destruct (jerk <=? - JERK_THRESHOLD); [reflexivity|].
  destruct (JERK_THRESHOLD <=? jerk); reflexivity.
Qed.

End Interp.

Section UpdateFacts.

Local Open Scope float_scope.

Variable SatState : Type.
Variable VehicleModel : Type.
Variable Actuators : Type.
Variable MIN_STEER_SPEED : float.
Variable ACCELERATION_DUE_TO_GRAVITY : float.
Variable calc_curvature : VehicleModel -> float -> float -> float -> float.
Variable pid_update :
  PID.t -> float -> bool -> float -> float -> bool -> PID.t * float.
Variable _check_saturation : SatState -> bool -> CarState.t -> SatState * bool.
Variable libm_pow : float -> float -> float.

Implicit Type self : LatControlTorque SatState.

Local Abbreviation tick :=
  (update MIN_STEER_SPEED ACCELERATION_DUE_TO_GRAVITY calc_curvature
     pid_update _check_saturation libm_pow).

(** A tick that is not active or below the speed floor. *)
Lemma update_idle_eq active CS VM params (la : Actuators) dc dcr llk self :
  (CarState.vEgo CS <? MIN_STEER_SPEED) || negb active = true ->
  tick active CS VM params la dc dcr llk self
  = (if active then self else set_pid (PID.reset (pid self)) self,
     Ok (- 0, 0, idle_log)).
Proof.
  intros H. unfold update. rewrite H.
  destruct active; reflexivity.
Qed.

Lemma CP_select_tune self dc : CP (fst (select_tune self dc)) = CP self.
Proof.
  unfold select_tune, detectChange, detectChangeRight.
  repeat match goal with
         | |- context [if ?b then _ else _] =>
             lazymatch b with
             | context [if _ then _ else _] => fail
             | _ => destruct b
             end
         end; cbn; rewrite ?CP_resync; cbn; rewrite ?CP_resync; reflexivity.
Qed.

Ltac tick_tail self dc :=
  let Ecfg := fresh "Ecfg" in
  let Eright := fresh "Eright" in
  destruct (Py.pow2 _ _) as [?v2|?e]; [|reflexivity];
  destruct (CarParams.lateralTuneSplit (CP self)) eqn:Ecfg;
  destruct (lateralTuneSplit self);
  destruct (0.0002 <=? dc) eqn:Eright;
  cbn [negb Bool.eqb fst snd];
  unfold detectChange, detectChangeRight;
  cbn [CP set_lateralTuneSplit];
  rewrite ?CP_resync, ?Ecfg; cbn [fst snd]; rewrite ?Eright;
  cbn [fst snd CP set_lateralTuneSplit];
  rewrite interp_jerk, ?CP_resync;
  (destruct (Py.truediv _ _) as [?q|?e]; [|reflexivity]);
  cbv zeta;
  destruct (pid_update _ _ _ _ _ _) as [?pid' ?out];
  cbn [fst snd sat steer_max set_pid];
  destruct (_check_saturation _ _ _) as [?sat' ?saturated];
  reflexivity.

(** A tick that is active at or above the speed floor. *)
Lemma update_active_eq CS VM params (la : Actuators) dc dcr llk self :
  (CarState.vEgo CS <? MIN_STEER_SPEED) = false ->
  tick true CS VM params la dc dcr llk self
  = match measured_curvature calc_curvature self CS VM params llk with
    | Raise e => (self, Raise e)
    | Ok ac =>
        match Py.pow2 libm_pow (CarState.vEgo CS) with
        | Raise e => (self, Raise e)
        | Ok v2 =>
            let s1 := fst (select_tune self dc) in
            let right := snd (select_tune self dc) in
            match Py.truediv (friction_ramp (dcr * v2) (friction s1))
                    (Torque.kf (LateralTuning.torque
                                  (CarParams.lateralTuning (CP self)))) with
            | Raise e => (s1, Raise e)
            | Ok q =>
                let error := (dc * v2 + LOW_SPEED_FACTOR * dc)
                             - (ac * v2 + LOW_SPEED_FACTOR * ac) in
                let ff := (dc * v2
                           - LiveParameters.roll params
                             * ACCELERATION_DUE_TO_GRAVITY) + q in
                let r := pid_update (pid s1) error
                           (CarState.steeringPressed CS) ff
                           (CarState.vEgo CS)
                           (CarState.steeringRateLimited CS) in
                let c := _check_saturation (sat s1)
                           (steer_max s1 - abs (snd r) <? 1e-3) CS in
                (set_sat (fst c) (set_pid (fst r) s1),
                 Ok (- snd r, 0,
                     active_log right error (fst r) (snd r) (snd c)
                       (ac * v2) (dc * v2)))
            end
        end
    end.
Proof.
  intros Hv. unfold update. rewrite Hv. cbn [orb negb].
  unfold bind, get, lift, ret, modify, measured_curvature, select_tune.
  destruct (use_steering_angle self) eqn:Eangle.
  - tick_tail self dc.
  - destruct (Py.index _ 2) as [yaw_rate|e]; [|reflexivity].
    destruct (Py.truediv yaw_rate (CarState.vEgo CS)) as [ac|e];
      [|reflexivity].
    tick_tail self dc.
Qed.

(** What a returning active tick has computed. *)
Lemma update_active_inv CS VM params (la : Actuators) dc dcr llk self
    self' t z log :
  (CarState.vEgo CS <? MIN_STEER_SPEED) = false ->
  tick true CS VM params la dc dcr llk self = (self', Ok (t, z, log)) ->
  exists ac v2 q,
    measured_curvature calc_curvature self CS VM params llk = Ok ac
    /\ Py.pow2 libm_pow (CarState.vEgo CS) = Ok v2
    /\ Py.truediv
         (friction_ramp (dcr * v2) (friction (fst (select_tune self dc))))
         (Torque.kf (LateralTuning.torque
                       (CarParams.lateralTuning (CP self)))) = Ok q
    /\ let s1 := fst (select_tune self dc) in
       let error := (dc * v2 + LOW_SPEED_FACTOR * dc)
                    - (ac * v2 + LOW_SPEED_FACTOR * ac) in
       let ff := (dc * v2
                  - LiveParameters.roll params * ACCELERATION_DUE_TO_GRAVITY)
                 + q in
       let r := pid_update (pid s1) error (CarState.steeringPressed CS) ff
                  (CarState.vEgo CS) (CarState.steeringRateLimited CS) in
       let c := _check_saturation (sat s1)
                  (steer_max s1 - abs (snd r) <? 1e-3) CS in
       self' = set_sat (fst c) (set_pid (fst r) s1)
       /\ t = - snd r /\ z = 0
       /\ log = active_log (snd (select_tune self dc)) error (fst r) (snd r)
                  (snd c) (ac * v2) (dc * v2).
Proof.
  intros Hv H. rewrite (update_active_eq _ _ _ _ _ _ _ _ Hv) in H.
  revert H.
  destruct (measured_curvature _ _ _ _ _ _) as [ac|e]; [|discriminate].
  destruct (Py.pow2 _ _) as [v2|e]; [|discriminate].
  cbv zeta.
  destruct (Py.truediv _ _) as [q|e] eqn:Eq; [|discriminate].
  intros H. exists ac, v2, q.
  injection H as <- <- <- <-. repeat split. exact Eq.
Qed.

(** An active tick returns when none of its partial operations raises. *)
Lemma update_active_returns CS VM params (la : Actuators) dc dcr llk self
    ac v2 :
  (CarState.vEgo CS <? MIN_STEER_SPEED) = false ->
  measured_curvature calc_curvature self CS VM params llk = Ok ac ->
  Py.pow2 libm_pow (CarState.vEgo CS) = Ok v2 ->
  (Torque.kf (LateralTuning.torque (CarParams.lateralTuning (CP self)))
   =? 0) = false ->
  exists self' t log,
    tick true CS VM params la dc dcr llk self = (self', Ok (t, 0, log)).
Proof.
  intros Hv Hac Hv2 Hkf.
  rewrite (update_active_eq _ _ _ _ _ _ _ _ Hv), Hac, Hv2. cbv zeta.
  unfold Py.truediv. rewrite Hkf. eauto.
Qed.

(** *** The tuning selection, case by case *)

Lemma select_tune_split self dc :
  CarParams.lateralTuneSplit (CP self) = true ->
  select_tune self dc
  = (resync
       (LateralTuning.torque
          ((if 0.0002 <=? dc
            then CarParams.lateralTuningRight
            else CarParams.lateralTuning) (CP self)))
       (set_lateralTuneSplit true self),
     0.0002 <=? dc).
Proof.
  intros Hcfg. unfold select_tune, detectChange, detectChangeRight.
  rewrite Hcfg. destruct (lateralTuneSplit self) eqn:Ecache;
    cbn [negb Bool.eqb CP set_lateralTuneSplit]; rewrite Hcfg;
    destruct (0.0002 <=? dc); try reflexivity.
  all: destruct self; cbn in *; subst; reflexivity.
Qed.

Lemma select_tune_switched_off self dc :
  CarParams.lateralTuneSplit (CP self) = false ->
  lateralTuneSplit self = true ->
  select_tune self dc
  = (set_lateralTuneSplit false (detectChange self), false).
Proof.
  intros Hcfg Hcache. unfold select_tune. rewrite Hcfg, Hcache.
  cbn [negb Bool.eqb CP set_lateralTuneSplit].
  unfold detectChange. rewrite CP_resync, Hcfg. reflexivity.
Qed.

Lemma select_tune_off self dc :
  CarParams.lateralTuneSplit (CP self) = false ->
  lateralTuneSplit self = false ->
  select_tune self dc = (self, false).
Proof.
  intros Hcfg Hcache. unfold select_tune. rewrite Hcfg, Hcache.
  cbn [negb Bool.eqb]. rewrite Hcfg. reflexivity.
Qed.

Lemma select_tune_keeps self dc :
  sat (fst (select_tune self dc)) = sat self
  /\ steer_max (fst (select_tune self dc)) = steer_max self
  /\ PID.pos_limit (pid (fst (select_tune self dc))) = PID.pos_limit (pid self)
  /\ PID.neg_limit (pid (fst (select_tune self dc))) = PID.neg_limit (pid self)
  /\ same_accumulators (pid self) (pid (fst (select_tune self dc))).
Proof.
  destruct (CarParams.lateralTuneSplit (CP self)) eqn:Ecfg.
  - rewrite (select_tune_split _ _ Ecfg). cbn [fst].
    rewrite sat_resync, steer_max_resync.
    destruct (limits_resync _
                (LateralTuning.torque
                   ((if 0.0002 <=? dc
                     then CarParams.lateralTuningRight
                     else CarParams.lateralTuning) (CP self)))
                (set_lateralTuneSplit true self)) as [-> ->].
    repeat split;
      apply (accumulators_resync _ _ (set_lateralTuneSplit true self)).
  - destruct (lateralTuneSplit self) eqn:Ecache.
    + rewrite (select_tune_switched_off _ _ Ecfg Ecache). cbn [fst].
      unfold detectChange. cbn [sat steer_max pid set_lateralTuneSplit].
      rewrite sat_resync, steer_max_resync.
      destruct (limits_resync _
                  (LateralTuning.torque (CarParams.lateralTuning (CP self)))
                  self) as [-> ->].
      repeat split; apply (accumulators_resync _ _ self).
    + rewrite (select_tune_off _ _ Ecfg Ecache). repeat split.
Qed.

(** *** Ticks below the speed floor or not active *)

(** C7.  On a tick with [active] false or [vEgo] below [MIN_STEER_SPEED],
    [update] returns the torque command [-0.0] (which equals 0.0) with
    [pid_log.active] false and nothing else filled in; it calls no
    collaborator and touches no tuning field; and when [active] is false the
    PID accumulators are reset. *)
Theorem idle_tick active CS VM params (la : Actuators) dc dcr llk self :
  (CarState.vEgo CS <? MIN_STEER_SPEED) || negb active = true ->
  tick active CS VM params la dc dcr llk self
  = (if active then self else set_pid (PID.reset (pid self)) self,
     Ok (- 0, 0, idle_log))
  /\ (- 0 =? 0) = true
  /\ Log.active idle_log = false
  /\ (let self' := fst (tick active CS VM params la dc dcr llk self) in
      lateralTuneSplit self' = lateralTuneSplit self
      /\ friction self' = friction self
      /\ use_steering_angle self' = use_steering_angle self
      /\ PID.k_f (pid self') = PID.k_f (pid self)
      /\ PID._k_p (pid self') = PID._k_p (pid self)
      /\ PID._k_i (pid self') = PID._k_i (pid self)
      /\ (active = false ->
          PID.p (pid self') = 0 /\ PID.i (pid self') = 0
          /\ PID.d (pid self') = 0 /\ PID.f (pid self') = 0)).
Proof.
  intros H. rewrite (update_idle_eq _ _ _ _ _ _ _ _ _ H).
  repeat split; destruct active; try reflexivity; intros; discriminate.
Qed.

(** C1, as amended.  On a tick with [active] false or [vEgo] below
    [MIN_STEER_SPEED], [update] returns a torque command equal to 0.0; the PID
    accumulators are cleared when [active] is false, and the PID object is
    left as it is when the controller is active below the speed floor. *)
Theorem idle_torque_zero active CS VM params (la : Actuators) dc dcr llk
    self :
  (CarState.vEgo CS <? MIN_STEER_SPEED) || negb active = true ->
  exists self' t log,
    tick active CS VM params la dc dcr llk self = (self', Ok (t, 0, log))
    /\ (t =? 0) = true
    /\ (active = false ->
        pid self' = PID.reset (pid self)
        /\ PID.p (pid self') = 0 /\ PID.i (pid self') = 0
        /\ PID.d (pid self') = 0 /\ PID.f (pid self') = 0)
    /\ (active = true -> pid self' = pid self).
Proof.
  intros H. rewrite (update_idle_eq _ _ _ _ _ _ _ _ _ H).
  do 3 eexists. split; [reflexivity|].
  split; [reflexivity|].
  destruct active; split; intros E; try discriminate E;
    repeat split; reflexivity.
Qed.

(** *** Active ticks *)

Ltac invert_tick H Hv :=
  let ac := fresh "ac" in
  let v2 := fresh "v2" in
  let q := fresh "q" in
  let Hac := fresh "Hac" in
  let Hv2 := fresh "Hv2" in
  let Hq := fresh "Hq" in
  let Hself := fresh "Hself" in
  let Ht := fresh "Ht" in
  let Hz := fresh "Hz" in
  let Hlog := fresh "Hlog" in
  destruct (update_active_inv _ _ _ _ _ _ _ _ _ _ _ _ Hv H)
    as (ac & v2 & q & Hac & Hv2 & Hq & Hself & Ht & Hz & Hlog);
  cbv zeta in Hself, Ht, Hlog.

(** C4.  On an active tick with split tune enabled in the configuration,
    [usingRightTune] is [desired_curvature >= 0.0002], and the PID primitive
    is run, on this very tick, on gains that agree with the selected tuning
    set (right-turn when [usingRightTune], default otherwise); the cached
    friction and steering-angle flag agree with it as well.  Nothing in the
    hypotheses depends on earlier ticks: the resync happens on every such
    tick. *)
Theorem split_tune_same_tick CS VM params (la : Actuators) dc dcr llk self
    self' t z log :
  CarParams.lateralTuneSplit (CP self) = true ->
  (CarState.vEgo CS <? MIN_STEER_SPEED) = false ->
  tick true CS VM params la dc dcr llk self = (self', Ok (t, z, log)) ->
  Log.usingRightTune log = (0.0002 <=? dc)
  /\ exists c error ff,
       pid_called pid_update c error (CarState.steeringPressed CS) ff
         (CarState.vEgo CS) (CarState.steeringRateLimited CS) (pid self') t
       /\ tuned_to
            (LateralTuning.torque
               ((if 0.0002 <=? dc
                 then CarParams.lateralTuningRight
                 else CarParams.lateralTuning) (CP self)))
            c (friction self') (use_steering_angle self')
       /\ lateralTuneSplit self' = true.
Proof.
  intros Hcfg Hv H. invert_tick H Hv.
  rewrite (select_tune_split _ _ Hcfg) in *. cbn [fst snd] in *.
  split; [subst log; reflexivity|].
  eexists _, _, _. split; [split; [subst self'; reflexivity | exact Ht]|].
  subst self'. cbn [friction use_steering_angle lateralTuneSplit set_sat
                      set_pid].
  split; [apply resync_tuned_to|].
  rewrite lateralTuneSplit_resync. reflexivity.
Qed.

(** C8.  When split tune was enabled at the previous tick and the
    configuration has it disabled now, the active tick runs the PID primitive
    on gains resynced to the default tuning set, with the accumulators it had
    before the resync; the cached flag follows the configuration. *)
Theorem split_disabled_resync CS VM params (la : Actuators) dc dcr llk self
    self' t z log :
  CarParams.lateralTuneSplit (CP self) = false ->
  lateralTuneSplit self = true ->
  (CarState.vEgo CS <? MIN_STEER_SPEED) = false ->
  tick true CS VM params la dc dcr llk self = (self', Ok (t, z, log)) ->
  exists c error ff,
    pid_called pid_update c error (CarState.steeringPressed CS) ff
      (CarState.vEgo CS) (CarState.steeringRateLimited CS) (pid self') t
    /\ tuned_to (LateralTuning.torque (CarParams.lateralTuning (CP self)))
         c (friction self') (use_steering_angle self')
    /\ same_accumulators (pid self) c
    /\ lateralTuneSplit self' = false
    /\ Log.usingRightTune log = false.
Proof.
  intros Hcfg Hcache Hv H. invert_tick H Hv.
  rewrite (select_tune_switched_off _ _ Hcfg Hcache) in *.
  cbn [fst snd] in *.
  eexists _, _, _. split; [split; [subst self'; reflexivity | exact Ht]|].
  subst self' log. unfold detectChange.
  cbn [friction use_steering_angle lateralTuneSplit set_sat set_pid pid
         set_lateralTuneSplit Log.usingRightTune active_log].
  split; [apply resync_tuned_to|].
  split; [apply accumulators_resync|].
  split; reflexivity.
Qed.

(** C2, as amended.  On an active tick with split tune disabled in the
    configuration and already disabled at the previous tick, [update] does
    not resync: the PID primitive is run on the PID object as the tick found
    it, and the cached friction, steering-angle flag and split flag are
    unchanged, whatever the default tuning set holds. *)
Theorem split_off_no_resync CS VM params (la : Actuators) dc dcr llk self
    self' t z log :
  CarParams.lateralTuneSplit (CP self) = false ->
  lateralTuneSplit self = false ->
  (CarState.vEgo CS <? MIN_STEER_SPEED) = false ->
  tick true CS VM params la dc dcr llk self = (self', Ok (t, z, log)) ->
  (exists error ff,
     pid_called pid_update (pid self) error (CarState.steeringPressed CS) ff
       (CarState.vEgo CS) (CarState.steeringRateLimited CS) (pid self') t)
  /\ friction self' = friction self
  /\ use_steering_angle self' = use_steering_angle self
  /\ lateralTuneSplit self' = false
  /\ Log.usingRightTune log = false.
Proof.
  intros Hcfg Hcache Hv H. invert_tick H Hv.
  rewrite (select_tune_off _ _ Hcfg Hcache) in *. cbn [fst snd] in *.
  split.
  - eexists _, _. split; [subst self'; reflexivity | exact Ht].
  - subst self' log. repeat split. exact Hcache.
Qed.

Lemma truediv_Ok (x y q : float) : Py.truediv x y = Ok q -> q = x / y.
Proof.
  unfold Py.truediv. destruct (y =? 0); [discriminate|].
  intros H. injection H as <-. reflexivity.
Qed.

(** C6, as amended.  On an active tick at or above [MIN_STEER_SPEED] the
    error passed to the PID primitive (and logged) is [setpoint -
    measurement] with [setpoint = desired_lateral_accel + 200 *
    desired_curvature], [measurement = actual_lateral_accel + 200 *
    actual_curvature], [desired_lateral_accel = desired_curvature * vEgo ** 2]
    and [actual_lateral_accel = actual_curvature * vEgo ** 2], where
    [vEgo ** 2] is the value Python's float power gives (whatever the C
    library's [pow] returns) and every operation is evaluated in binary64 in
    the order written. *)
Theorem pid_error_setpoint_measurement CS VM params (la : Actuators) dc dcr
    llk self self' t z log :
  (CarState.vEgo CS <? MIN_STEER_SPEED) = false ->
  tick true CS VM params la dc dcr llk self = (self', Ok (t, z, log)) ->
  exists actual_curvature vEgo_sq,
    measured_curvature calc_curvature self CS VM params llk
    = Ok actual_curvature
    /\ Py.pow2 libm_pow (CarState.vEgo CS) = Ok vEgo_sq
    /\ let desired_lateral_accel := dc * vEgo_sq in
       let actual_lateral_accel := actual_curvature * vEgo_sq in
       let setpoint := desired_lateral_accel + 200 * dc in
       let measurement := actual_lateral_accel + 200 * actual_curvature in
       Log.error log = setpoint - measurement
       /\ exists c ff,
            pid_called pid_update c (setpoint - measurement)
              (CarState.steeringPressed CS) ff (CarState.vEgo CS)
              (CarState.steeringRateLimited CS) (pid self') t.
Proof.
  intros Hv H. invert_tick H Hv.
  exists ac, v2. split; [exact Hac|]. split; [exact Hv2|]. cbv zeta.
  split; [subst log; reflexivity|].
  eexists _, _. split; [subst self'; reflexivity | exact Ht].
Qed.

(** C10.  On an active tick the friction compensation is divided by the
    default tuning set's [kf] as the configuration holds it,
    [CP.lateralTuning.torque.kf], and the quotient is added to the
    feedforward passed to the PID primitive; this is so for every
    configuration and state, with split tune enabled and the right-turn set
    selected as much as without.  The friction that is interpolated is
    settled by the cached and the configured frictions alone, so neither the
    right-turn set's [kf] nor the PID primitive's live [k_f] enters the
    term. *)
Theorem friction_divisor_default_kf CS VM params (la : Actuators) dc dcr llk
    self self' t z log :
  (CarState.vEgo CS <? MIN_STEER_SPEED) = false ->
  tick true CS VM params la dc dcr llk self = (self', Ok (t, z, log)) ->
  exists vEgo_sq friction_compensation c error,
    Py.pow2 libm_pow (CarState.vEgo CS) = Ok vEgo_sq
    /\ NumpyFast.interp (dcr * vEgo_sq) [- JERK_THRESHOLD; JERK_THRESHOLD]
         [- friction self'; friction self'] = Ok friction_compensation
    /\ let default_kf :=
         Torque.kf (LateralTuning.torque (CarParams.lateralTuning (CP self)))
       in
       Py.truediv friction_compensation default_kf
       = Ok (friction_compensation / default_kf)
       /\ pid_called pid_update c error (CarState.steeringPressed CS)
            ((dc * vEgo_sq
              - LiveParameters.roll params * ACCELERATION_DUE_TO_GRAVITY)
             + friction_compensation / default_kf)
            (CarState.vEgo CS) (CarState.steeringRateLimited CS)
            (pid self') t
       /\ (CarParams.lateralTuneSplit (CP self) = true ->
           (0.0002 <=? dc) = true ->
           Log.usingRightTune log = true)
       /\ friction self'
          = (if CarParams.lateralTuneSplit (CP self) || lateralTuneSplit self
             then
               let tune :=
                 LateralTuning.torque
                   ((if CarParams.lateralTuneSplit (CP self)
                        && (0.0002 <=? dc)
                     then CarParams.lateralTuningRight
                     else CarParams.lateralTuning) (CP self)) in
               if Py.isclose (friction self) (Torque.friction tune)
               then friction self else Torque.friction tune
             else friction self).
Proof.
  intros Hv H. invert_tick H Hv.
  exists v2, (friction_ramp (dcr * v2) (friction self')).
  eexists _, _. split; [exact Hv2|].
  split; [apply interp_jerk|]. cbv zeta.
  assert (Hfr : friction self' = friction (fst (select_tune self dc)))
    by (subst self'; reflexivity).
  rewrite Hfr. pose proof (truediv_Ok _ _ _ Hq) as Eq.
  split; [rewrite Hq, Eq; reflexivity|].
  rewrite <- Eq.
  split; [split; [subst self'; reflexivity | exact Ht]|].
  split.
  - intros Hcfg Hright. subst log.
    rewrite (select_tune_split _ _ Hcfg). exact Hright.
  - destruct (CarParams.lateralTuneSplit (CP self)) eqn:Hcfg.
    + rewrite (select_tune_split _ _ Hcfg). cbn [fst orb andb].
      rewrite friction_resync. reflexivity.
    + destruct (lateralTuneSplit self) eqn:Hcache; cbn [orb andb].
      * rewrite (select_tune_switched_off _ _ Hcfg Hcache).
        unfold detectChange. cbn [fst friction set_lateralTuneSplit].
        rewrite friction_resync. reflexivity.
      * rewrite (select_tune_off _ _ Hcfg Hcache). reflexivity.
Qed.

(** [__init__] configures the PID limits as [+steer_max] and
    [-steer_max]. *)
Lemma init_limits_configured (base : SatState) (base_steer_max : float)
    (cp : CarParams.t) :
  limits_configured (__init__ base base_steer_max cp).
Proof. split; reflexivity. Qed.

(** C5.  Assume the PID primitive, whenever its limits are [+steer_max] and
    [-steer_max], returns an output within them, and let the controller's PID
    object have the limits [__init__] gave it.  Then every tick that returns
    has [|torque| <= steer_max]; and the limits stay configured for the next
    tick if the PID primitive does not change them. *)
Theorem torque_within_steer_max active CS VM params (la : Actuators) dc dcr
    llk self self' t z log :
  (forall c error override ff speed freeze,
      PID.pos_limit c = steer_max self ->
      PID.neg_limit c = - steer_max self ->
      (- steer_max self <=? snd (pid_update c error override ff speed freeze))
      && (snd (pid_update c error override ff speed freeze)
          <=? steer_max self) = true) ->
  limits_configured self ->
  tick active CS VM params la dc dcr llk self = (self', Ok (t, z, log)) ->
  (abs t <=? steer_max self) = true
  /\ steer_max self' = steer_max self
  /\ ((forall c error override ff speed freeze,
         PID.pos_limit (fst (pid_update c error override ff speed freeze))
         = PID.pos_limit c
         /\ PID.neg_limit (fst (pid_update c error override ff speed freeze))
            = PID.neg_limit c) ->
      limits_configured self').
Proof.
  intros Hclamp [Hpos Hneg] H.
  destruct ((CarState.vEgo CS <? MIN_STEER_SPEED) || negb active) eqn:Hidle.
  - rewrite (update_idle_eq _ _ _ _ _ _ _ _ _ Hidle) in H.
    injection H as <- <- <- <-.
    split; [|split].
    + change (abs (- 0)) with 0.
      exact (leb_zero_of_range _ _
               (Hclamp (pid self) 0 false 0 0 false Hpos Hneg)).
    + destruct active; reflexivity.
    + intros _. destruct active; split; assumption.
  - apply orb_false_elim in Hidle. destruct Hidle as [Hv Hact].
    destruct active; [|discriminate Hact].
    invert_tick H Hv.
    destruct (select_tune_keeps self dc) as (_ & Hsm & Hp & Hn & _).
    split; [|split].
    + subst t. apply leb_abs_opp. apply Hclamp; congruence.
    + subst self'. exact Hsm.
    + intros Hkeep. subst self'.
      unfold limits_configured.
      cbn [pid steer_max set_sat set_pid].
      match goal with
      | |- context [fst (pid_update ?c ?e ?o ?f ?s ?r)] =>
          destruct (Hkeep c e o f s r) as [-> ->]
      end.
      split; congruence.
Qed.

(** C9, as amended.  Let [MIN_STEER_SPEED] be positive.  A tick that is not
    active or below the speed floor always returns.  At or above the speed
    floor a division by [vEgo] never raises.  An active tick returns
    provided the yaw-rate vector has an entry at index 2 (when the steering
    angle is not used), [vEgo ** 2] does not overflow, and the default tuning
    set's [kf] is not zero. *)
Theorem update_total active CS VM params (la : Actuators) dc dcr llk self :
  (0 <? MIN_STEER_SPEED) = true ->
  ((CarState.vEgo CS <? MIN_STEER_SPEED) || negb active = true ->
   exists self' t log,
     tick active CS VM params la dc dcr llk self = (self', Ok (t, 0, log)))
  /\ ((CarState.vEgo CS <? MIN_STEER_SPEED) = false ->
      forall y, Py.truediv y (CarState.vEgo CS) = Ok (y / CarState.vEgo CS))
  /\ ((CarState.vEgo CS <? MIN_STEER_SPEED) || negb active = false ->
      (use_steering_angle self = true
       \/ exists yaw_rate,
            nth_error
              (Measurement.value
                 (LiveLocationKalman.angularVelocityCalibrated llk)) 2
            = Some yaw_rate) ->
      (exists vEgo_sq, Py.pow2 libm_pow (CarState.vEgo CS) = Ok vEgo_sq) ->
      (Torque.kf (LateralTuning.torque (CarParams.lateralTuning (CP self)))
       =? 0) = false ->
      exists self' t log,
        tick active CS VM params la dc dcr llk self = (self', Ok (t, 0, log))).
Proof.
  intros Hmin. split; [|split].
  - intros Hidle. rewrite (update_idle_eq _ _ _ _ _ _ _ _ _ Hidle). eauto.
  - intros Hv y. unfold Py.truediv.
    rewrite (not_below_nonzero _ _ Hmin Hv). reflexivity.
  - intros Hidle Hyaw [v2 Hv2] Hkf.
    apply orb_false_elim in Hidle. destruct Hidle as [Hv Hact].
    destruct active; [|discriminate Hact].
    assert (Hac : exists ac,
               measured_curvature calc_curvature self CS VM params llk
               = Ok ac).
    { unfold measured_curvature, Py.index.
      destruct (use_steering_angle self); [eauto|].
      destruct Hyaw as [Hyaw|[y Hy]]; [discriminate Hyaw|].
      rewrite Hy. unfold Py.truediv.
      rewrite (not_below_nonzero _ _ Hmin Hv). eauto. }
    destruct Hac as [ac Hac].
    exact (update_active_returns _ _ _ la dc dcr _ _ _ _ Hv Hac Hv2 Hkf).
Qed.

(** *** Further properties of [update] *)

(** X4.  A tick with [active] false does to the PID object what [reset]
    does, and nothing to the base class: the saturation state that [reset]
    passes to [super().reset()] is left as it was. *)
Theorem inactive_tick_resets_pid_only (LatControl_reset : SatState -> SatState)
    CS VM params (la : Actuators) dc dcr llk self :
  pid (fst (tick false CS VM params la dc dcr llk self))
  = pid (reset SatState LatControl_reset self)
  /\ sat (fst (tick false CS VM params la dc dcr llk self)) = sat self
  /\ set_sat (LatControl_reset (sat self))
       (fst (tick false CS VM params la dc dcr llk self))
     = reset SatState LatControl_reset self.
Proof.
  rewrite (update_idle_eq false CS VM params la dc dcr llk self
             (orb_true_r _)).
  repeat split.
Qed.

(** X5.  [update] never writes the configuration or [steer_max], whatever
    the inputs and whether it returns or raises. *)
Theorem update_keeps_configuration active CS VM params (la : Actuators) dc
    dcr llk self :
  CP (fst (tick active CS VM params la dc dcr llk self)) = CP self
  /\ steer_max (fst (tick active CS VM params la dc dcr llk self))
     = steer_max self.
Proof.
  destruct ((CarState.vEgo CS <? MIN_STEER_SPEED) || negb active) eqn:Hidle.
  - rewrite (update_idle_eq _ _ _ _ _ _ _ _ _ Hidle).
    destruct active; split; reflexivity.
  - apply orb_false_elim in Hidle. destruct Hidle as [Hv Hact].
    destruct active; [|discriminate Hact].
    rewrite (update_active_eq _ _ _ _ _ _ _ _ Hv).
    destruct (select_tune_keeps self dc) as (_ & Hsm & _).
    pose proof (CP_select_tune self dc) as Hcp.
    destruct (measured_curvature _ _ _ _ _ _); [|split; reflexivity].
    destruct (Py.pow2 _ _); [|split; reflexivity].
    cbv zeta. destruct (Py.truediv _ _); cbn [fst]; split; assumption.
Qed.

(** X6.  After an active tick that returns, the cached split flag mirrors
    the configuration's, whatever it was before. *)
Theorem split_flag_mirrors_configuration CS VM params (la : Actuators) dc dcr
    llk self self' t z log :
  (CarState.vEgo CS <? MIN_STEER_SPEED) = false ->
  tick true CS VM params la dc dcr llk self = (self', Ok (t, z, log)) ->
  lateralTuneSplit self' = CarParams.lateralTuneSplit (CP self).
Proof.
  intros Hv H. invert_tick H Hv. subst self'.
  cbn [lateralTuneSplit set_sat set_pid].
  destruct (CarParams.lateralTuneSplit (CP self)) eqn:Hcfg.
  - rewrite (select_tune_split _ _ Hcfg). cbn [fst].
    rewrite lateralTuneSplit_resync. reflexivity.
  - destruct (lateralTuneSplit self) eqn:Hcache.
    + rewrite (select_tune_switched_off _ _ Hcfg Hcache). reflexivity.
    + rewrite (select_tune_off _ _ Hcfg Hcache). exact Hcache.
Qed.

Lemma pow2_raises (x : float) (e : exn) :
  Py.pow2 libm_pow x = Raise e -> e = OverflowError.
Proof.
  unfold Py.pow2. destruct (is_nan x); [discriminate|].
  destruct (is_infinity x); [discriminate|].
  destruct (x =? 0); [discriminate|]. cbv zeta.
  destruct ((if x <? 0 then - x else x) =? 1); [discriminate|].
  destruct (is_infinity _); [|discriminate].
  intros H. injection H as <-. reflexivity.
Qed.

(** X7.  The ways an active tick at or above a positive [MIN_STEER_SPEED]
    raises.  [IndexError]: the steering angle is not used and the yaw-rate
    vector has no index 2; the controller is untouched.  [OverflowError]:
    [vEgo ** 2] overflows; the controller is untouched.
    [ZeroDivisionError]: the default tuning set's [kf] is zero; the tuning
    selection of this tick is already in place, the PID primitive has not
    run.  There is no other way. *)
Theorem update_raises CS VM params (la : Actuators) dc dcr llk self :
  (0 <? MIN_STEER_SPEED) = true ->
  (CarState.vEgo CS <? MIN_STEER_SPEED) = false ->
  let yaw :=
    nth_error
      (Measurement.value (LiveLocationKalman.angularVelocityCalibrated llk))
      2 in
  let measured := use_steering_angle self = true \/ yaw <> None in
  let kf :=
    Torque.kf (LateralTuning.torque (CarParams.lateralTuning (CP self))) in
  (use_steering_angle self = false -> yaw = None ->
   tick true CS VM params la dc dcr llk self = (self, Raise IndexError))
  /\ (measured -> Py.pow2 libm_pow (CarState.vEgo CS) = Raise OverflowError ->
      tick true CS VM params la dc dcr llk self
      = (self, Raise OverflowError))
  /\ (measured -> Py.pow2 libm_pow (CarState.vEgo CS) <> Raise OverflowError ->
      (kf =? 0) = true ->
      tick true CS VM params la dc dcr llk self
      = (fst (select_tune self dc), Raise ZeroDivisionError))
  /\ (forall e,
        snd (tick true CS VM params la dc dcr llk self) = Raise e ->
        (e = IndexError /\ use_steering_angle self = false /\ yaw = None)
        \/ (e = OverflowError
            /\ Py.pow2 libm_pow (CarState.vEgo CS) = Raise OverflowError)
        \/ (e = ZeroDivisionError /\ (kf =? 0) = true)).
Proof.
  intros Hmin Hv yaw measured kf.
  rewrite (update_active_eq _ _ _ _ _ _ _ _ Hv).
  assert (Hmeas : measured ->
            exists ac,
              measured_curvature calc_curvature self CS VM params llk
              = Ok ac).
  { unfold measured, yaw, measured_curvature, Py.index.
    destruct (use_steering_angle self); [eauto|].
    intros [Habs|Hy]; [discriminate Habs|].
    destruct (nth_error _ 2) as [y|]; [|contradiction Hy; reflexivity].
    unfold Py.truediv. rewrite (not_below_nonzero _ _ Hmin Hv). eauto. }
  split; [|split; [|split]].
  - intros Hangle Hyaw. unfold measured_curvature, Py.index.
    fold yaw. rewrite Hangle, Hyaw. reflexivity.
  - intros Hm Hpow. destruct (Hmeas Hm) as [ac ->]. rewrite Hpow.
    reflexivity.
  - intros Hm Hpow Hkf. destruct (Hmeas Hm) as [ac ->].
    destruct (Py.pow2 libm_pow (CarState.vEgo CS)) as [v2|e] eqn:Epow.
    + cbv zeta. unfold Py.truediv. fold kf. rewrite Hkf. reflexivity.
    + contradiction Hpow. rewrite (pow2_raises _ _ Epow). reflexivity.
  - intros e.
    destruct (measured_curvature calc_curvature self CS VM params llk)
      as [ac|e'] eqn:Eac.
    + destruct (Py.pow2 libm_pow (CarState.vEgo CS)) as [v2|e'] eqn:Epow.
      * cbv zeta. unfold Py.truediv. fold kf.
        destruct (kf =? 0); cbn [snd]; intros H; [|discriminate H].
        injection H as <-. right. right. split; reflexivity.
      * cbn [snd]. intros H. injection H as <-.
        right. left. rewrite (pow2_raises _ _ Epow). split; reflexivity.
    + cbn [snd]. intros H. injection H as <-. left.
      revert Eac. unfold measured_curvature, Py.index. fold yaw.
      destruct (use_steering_angle self); [discriminate|].
      destruct yaw as [y|].
      * unfold Py.truediv. rewrite (not_below_nonzero _ _ Hmin Hv).
        discriminate.
      * intros H. injection H as <-. repeat split.
Qed.

(** X8.  A NaN [vEgo] is not caught by the speed gate: [vEgo <
    MIN_STEER_SPEED] is false, so an active tick runs the control law, and
    what it returns comes from a PID primitive that was handed a NaN error
    and a NaN feedforward. *)
Theorem nan_speed_reaches_pid CS VM params (la : Actuators) dc dcr llk self
    self' t z log :
  is_nan (CarState.vEgo CS) = true ->
  tick true CS VM params la dc dcr llk self = (self', Ok (t, z, log)) ->
  (CarState.vEgo CS <? MIN_STEER_SPEED) = false
  /\ Log.active log = true
  /\ is_nan (Log.error log) = true
  /\ exists c error ff,
       pid_called pid_update c error (CarState.steeringPressed CS) ff
         (CarState.vEgo CS) (CarState.steeringRateLimited CS) (pid self') t
       /\ is_nan error = true
       /\ is_nan ff = true.
Proof.
  intros Hnan H.
  pose proof (nan_not_below _ MIN_STEER_SPEED Hnan) as Hv.
  invert_tick H Hv.
  assert (Ev2 : v2 = CarState.vEgo CS).
  { revert Hv2. unfold Py.pow2. rewrite Hnan. intros E.
    injection E as <-. reflexivity. }
  subst v2.
  assert (Herr : is_nan
                   (dc * CarState.vEgo CS + LOW_SPEED_FACTOR * dc
                    - (ac * CarState.vEgo CS + LOW_SPEED_FACTOR * ac))
                 = true)
    by (apply sub_nan_l, add_nan_l, mul_nan_r, Hnan).
  split; [exact Hv|].
  split; [subst log; reflexivity|].
  split; [subst log; exact Herr|].
  eexists _, _, _.
  split; [split; [subst self'; reflexivity | exact Ht]|].
  split; [exact Herr|].
  apply add_nan_l, sub_nan_l, mul_nan_r, Hnan.
Qed.

(** X9.  The curvature measurement follows the steering-angle flag as
    cached when the tick starts.  With the cached flag false the measurement
    is [yaw_rate / vEgo] whatever the configuration says, and the steering
    angle, the angle offset and the vehicle model play no part; a resync on
    this tick changes the flag for the next tick only. *)
Theorem steering_angle_flag_lags CS VM params (la : Actuators) dc dcr llk
    self self' t z log :
  use_steering_angle self = false ->
  (CarState.vEgo CS <? MIN_STEER_SPEED) = false ->
  tick true CS VM params la dc dcr llk self = (self', Ok (t, z, log)) ->
  exists yaw_rate vEgo_sq,
    nth_error
      (Measurement.value (LiveLocationKalman.angularVelocityCalibrated llk))
      2 = Some yaw_rate
    /\ Py.pow2 libm_pow (CarState.vEgo CS) = Ok vEgo_sq
    /\ let actual_curvature := yaw_rate / CarState.vEgo CS in
       Log.actualLateralAccel log = actual_curvature * vEgo_sq
       /\ Log.error log
          = (dc * vEgo_sq + 200 * dc)
            - (actual_curvature * vEgo_sq + 200 * actual_curvature)
       /\ (CarParams.lateralTuneSplit (CP self) = true ->
           use_steering_angle self'
           = Torque.useSteeringAngle
               (LateralTuning.torque
                  ((if 0.0002 <=? dc
                    then CarParams.lateralTuningRight
                    else CarParams.lateralTuning) (CP self)))).
Proof.
  intros Hangle Hv H. invert_tick H Hv.
  revert Hac. unfold measured_curvature, Py.index. rewrite Hangle.
  destruct (nth_error _ 2) as [y|]; [|discriminate].
  intros Hdiv. apply truediv_Ok in Hdiv. subst ac.
  exists y, v2. split; [reflexivity|]. split; [exact Hv2|]. cbv zeta.
  split; [subst log; reflexivity|].
  split; [subst log; reflexivity|].
  intros Hcfg. subst self'. cbn [use_steering_angle set_sat set_pid].
  rewrite (select_tune_split _ _ Hcfg). cbn [fst].
  apply resync_tuned_to.
Qed.

(** X10.  After an active tick that returns, the diagnostics agree with the
    controller: [p], [i], [d] and [f] are the terms of the PID object the
    controller now holds, [output] is the torque command returned, the
    secondary output is 0.0, and [saturated] is what [_check_saturation]
    answered, from the saturation state of before the tick, to
    [steer_max - abs(torque) < 1e-3]. *)
Theorem diagnostics_agree CS VM params (la : Actuators) dc dcr llk self
    self' t z log :
  (CarState.vEgo CS <? MIN_STEER_SPEED) = false ->
  tick true CS VM params la dc dcr llk self = (self', Ok (t, z, log)) ->
  Log.active log = true
  /\ Log.p log = PID.p (pid self') /\ Log.i log = PID.i (pid self')
  /\ Log.d log = PID.d (pid self') /\ Log.f log = PID.f (pid self')
  /\ Log.output log = t
  /\ z = 0
  /\ (sat self', Log.saturated log)
     = _check_saturation (sat self) (steer_max self - abs t <? 1e-3) CS.
Proof.
  intros Hv H. invert_tick H Hv.
  destruct (select_tune_keeps self dc) as (Hsat & Hsm & _).
  subst self' log.
  cbn [pid set_sat set_pid sat Log.active Log.p Log.i Log.d Log.f
         Log.output Log.saturated active_log].
  repeat (split; [reflexivity|]).
  split; [symmetry; exact Ht|].
  split; [exact Hz|].
  rewrite Ht, abs_opp, Hsat, Hsm.
  symmetry. apply surjective_pairing.
Qed.

(** X11.  Once split tune is switched off, the default tuning set is
    resynced on that tick and never again: on a later active tick with split
    tune still off the PID primitive runs on the gains it holds and the
    cached friction and steering-angle flag stay, whatever the configuration
    has meanwhile been changed to. *)
Theorem switch_off_resyncs_once CS VM params (la : Actuators) dc dcr llk self
    self1 t1 z1 log1 (cp' : CarParams.t) CS' VM' params' (la' : Actuators)
    dc' dcr' llk' self2 t2 z2 log2 :
  CarParams.lateralTuneSplit (CP self) = false ->
  lateralTuneSplit self = true ->
  (CarState.vEgo CS <? MIN_STEER_SPEED) = false ->
  tick true CS VM params la dc dcr llk self = (self1, Ok (t1, z1, log1)) ->
  CarParams.lateralTuneSplit cp' = false ->
  (CarState.vEgo CS' <? MIN_STEER_SPEED) = false ->
  tick true CS' VM' params' la' dc' dcr' llk' (set_CP cp' self1)
  = (self2, Ok (t2, z2, log2)) ->
  (exists error ff,
     pid_called pid_update (pid self1) error (CarState.steeringPressed CS')
       ff (CarState.vEgo CS') (CarState.steeringRateLimited CS')
       (pid self2) t2)
  /\ friction self2 = friction self1
  /\ use_steering_angle self2 = use_steering_angle self1.
Proof.
  intros Hcfg Hcache Hv H1 Hcfg' Hv' H2.
  assert (Hflag : lateralTuneSplit (set_CP cp' self1) = false).
  { invert_tick H1 Hv. subst self1.
    rewrite (select_tune_switched_off _ _ Hcfg Hcache). reflexivity. }
  clear H1. invert_tick H2 Hv'.
  rewrite (select_tune_off (set_CP cp' self1) dc' Hcfg' Hflag) in *.
  cbn [fst snd] in *. subst self2.
  split; [|split; reflexivity].
  eexists _, _. split; [reflexivity | exact Ht].
Qed.

End UpdateFacts.

(** ** The theorems at work on the test bench *)

Section BenchRuns.

Local Open Scope float_scope.

Import Bench.

Lemma bench_pid_clamps (c : PID.t) (error : float) (override : bool)
    (ff speed : float) (freeze : bool) :
  PID.pos_limit c = 1 ->
  PID.neg_limit c = - 1 ->
  (- 1 <=? snd (pid_update c error override ff speed freeze))
  && (snd (pid_update c error override ff speed freeze) <=? 1) = true.
Proof.
  intros Hpos Hneg. unfold pid_update, clip. cbn [snd].
  rewrite Hpos, Hneg.
  match goal with
  | |- context [if ?b then _ else _] => destruct b eqn:E
  end; [exact E|].
  match goal with
  | |- context [if ?b then _ else _] => destruct b
  end; reflexivity.
Qed.

Lemma bench_pid_keeps_limits (c : PID.t) (error : float) (override : bool)
    (ff speed : float) (freeze : bool) :
  PID.pos_limit (fst (pid_update c error override ff speed freeze))
  = PID.pos_limit c
  /\ PID.neg_limit (fst (pid_update c error override ff speed freeze))
     = PID.neg_limit c.
Proof. split; reflexivity. Qed.

Lemma idle_tick_witness :
  (CarState.vEgo (CS 20) <? MIN_STEER_SPEED) || negb false = true
  /\ disengaged (driven false)
     = (set_pid (PID.reset (pid (driven false))) (driven false),
        Ok (- 0, 0, idle_log))
  /\ PID.i (pid (driven false)) = 0.125
  /\ PID.i (pid (fst (disengaged (driven false)))) = 0.
Proof.
  split; [reflexivity|].
  split; [|split; reflexivity].
  exact (proj1 (idle_tick _ _ _ MIN_STEER_SPEED ACCELERATION_DUE_TO_GRAVITY
                  calc_curvature pid_update _check_saturation libm_pow
                  false (CS 20) 2.7 params tt 0.001 0 (llk 0.01)
                  (driven false) eq_refl)).
Defined.

Lemma idle_torque_zero_witness :
  (CarState.vEgo (CS 0.1) <? MIN_STEER_SPEED) || negb true = true
  /\ exists self' t log,
       crawl true (driven false) = (self', Ok (t, 0, log))
       /\ (t =? 0) = true
       /\ (true = false ->
           pid self' = PID.reset (pid (driven false))
           /\ PID.p (pid self') = 0 /\ PID.i (pid self') = 0
           /\ PID.d (pid self') = 0 /\ PID.f (pid self') = 0)
       /\ (true = true -> pid self' = pid (driven false)).
Proof.
  split; [reflexivity|].
  exact (idle_torque_zero _ _ _ MIN_STEER_SPEED ACCELERATION_DUE_TO_GRAVITY
           calc_curvature pid_update _check_saturation libm_pow
           true (CS 0.1) 2.7 params tt 0.001 0 (llk 0) (driven false)
           eq_refl).
Defined.

(** C1 as stated fails: active below the speed floor, the torque is zero but
    the integral term built up while driving is still there. *)
Lemma idle_below_speed_keeps_integrator :
  (CarState.vEgo (CS 0.1) <? MIN_STEER_SPEED) = true
  /\ crawl true (driven false) = (driven false, Ok (- 0, 0, idle_log))
  /\ PID.i (pid (fst (crawl true (driven false)))) = 0.125
  /\ (PID.i (pid (fst (crawl true (driven false)))) =? 0) = false.
Proof. repeat split. Qed.

Lemma split_off_no_resync_witness :
  CarParams.lateralTuneSplit (CP retuned) = false
  /\ lateralTuneSplit retuned = false
  /\ (CarState.vEgo (CS 20) <? MIN_STEER_SPEED) = false
  /\ exists self' t log,
       cruise 0.001 0 retuned = (self', Ok (t, 0, log))
       /\ (exists error ff,
             pid_called pid_update (pid retuned) error false ff 20 false
               (pid self') t)
       /\ friction self' = friction retuned
       /\ use_steering_angle self' = use_steering_angle retuned
       /\ lateralTuneSplit self' = false
       /\ Log.usingRightTune log = false.
Proof.
  do 3 (split; [reflexivity|]).
  eexists _, _, _. split; [lazy; reflexivity|].
  apply (split_off_no_resync _ _ _ MIN_STEER_SPEED
           ACCELERATION_DUE_TO_GRAVITY calc_curvature pid_update
           _check_saturation libm_pow (CS 20) 2.7 params tt 0.001 0 (llk 0.01)
           retuned _ _ 0 _ eq_refl eq_refl eq_refl).
  lazy; reflexivity.
Defined.

(** C2 as stated fails: with split tune disabled all along, every field of
    the default tuning set has drifted from the live copy beyond the
    tolerance, and the tick leaves the live gains and the cached friction as
    they were. *)
Lemma split_off_drift_not_resynced :
  CarParams.lateralTuneSplit (CP retuned) = false
  /\ lateralTuneSplit retuned = false
  /\ (CarState.vEgo (CS 20) <? MIN_STEER_SPEED) = false
  /\ exists self' t log,
       cruise 0.001 0 retuned = (self', Ok (t, 0, log))
       /\ (let tune :=
             LateralTuning.torque (CarParams.lateralTuning (CP self')) in
           (PID.k_f (pid self') = 1 /\ Torque.kf tune = 2
            /\ Py.isclose (PID.k_f (pid self')) (Torque.kf tune) = false)
           /\ (PID._k_p (pid self') = 1 /\ Torque.kp tune = 2
               /\ Py.isclose (PID._k_p (pid self')) (Torque.kp tune) = false)
           /\ (PID._k_i (pid self') = 0.1 /\ Torque.ki tune = 0.2
               /\ Py.isclose (PID._k_i (pid self')) (Torque.ki tune) = false)
           /\ (friction self' = 0.1 /\ Torque.friction tune = 0.5
               /\ Py.isclose (friction self') (Torque.friction tune)
                  = false)).
Proof.
  do 3 (split; [reflexivity|]).
  eexists _, _, _. split; [lazy; reflexivity|].
  lazy. repeat split.
Qed.

Lemma split_tune_same_tick_witness :
  CarParams.lateralTuneSplit (CP (driven true)) = true
  /\ (CarState.vEgo (CS 20) <? MIN_STEER_SPEED) = false
  /\ exists self' t log,
       cruise 0.001 1 (driven true) = (self', Ok (t, 0, log))
       /\ Log.usingRightTune log = (0.0002 <=? 0.001)
       /\ exists c error ff,
            pid_called pid_update c error false ff 20 false (pid self') t
            /\ tuned_to
                 (LateralTuning.torque
                    ((if 0.0002 <=? 0.001
                      then CarParams.lateralTuningRight
                      else CarParams.lateralTuning) (CP (driven true))))
                 c (friction self') (use_steering_angle self')
            /\ lateralTuneSplit self' = true.
Proof.
  do 2 (split; [reflexivity|]).
  eexists _, _, _. split; [lazy; reflexivity|].
  apply (split_tune_same_tick _ _ _ MIN_STEER_SPEED
           ACCELERATION_DUE_TO_GRAVITY calc_curvature pid_update
           _check_saturation libm_pow (CS 20) 2.7 params tt 0.001 1 (llk 0.01)
           (driven true) _ _ 0 _ eq_refl eq_refl).
  lazy; reflexivity.
Defined.

Lemma split_disabled_resync_witness :
  CarParams.lateralTuneSplit (CP switched_off) = false
  /\ lateralTuneSplit switched_off = true
  /\ (CarState.vEgo (CS 20) <? MIN_STEER_SPEED) = false
  /\ exists self' t log,
       cruise 0.001 0 switched_off = (self', Ok (t, 0, log))
       /\ exists c error ff,
            pid_called pid_update c error false ff 20 false (pid self') t
            /\ tuned_to
                 (LateralTuning.torque
                    (CarParams.lateralTuning (CP switched_off)))
                 c (friction self') (use_steering_angle self')
            /\ same_accumulators (pid switched_off) c
            /\ lateralTuneSplit self' = false
            /\ Log.usingRightTune log = false.
Proof.
  do 3 (split; [reflexivity|]).
  eexists _, _, _. split; [lazy; reflexivity|].
  apply (split_disabled_resync _ _ _ MIN_STEER_SPEED
           ACCELERATION_DUE_TO_GRAVITY calc_curvature pid_update
           _check_saturation libm_pow (CS 20) 2.7 params tt 0.001 0 (llk 0.01)
           switched_off _ _ 0 _ eq_refl eq_refl eq_refl).
  lazy; reflexivity.
Defined.

Lemma torque_within_steer_max_witness :
  limits_configured (driven true)
  /\ exists self' t log,
       cruise 0.001 1 (driven true) = (self', Ok (t, 0, log))
       /\ t = - 1
       /\ (abs t <=? steer_max (driven true)) = true
       /\ steer_max self' = steer_max (driven true)
       /\ limits_configured self'.
Proof.
  split; [split; reflexivity|].
  eexists _, _, _. split; [lazy; reflexivity|].
  split; [reflexivity|].
  assert (Hrun : cruise 0.001 1 (driven true)
                 = (fst (cruise 0.001 1 (driven true)),
                    Ok (- 1, 0,
                        active_log true 0.30000000000000004
                          (pid (fst (cruise 0.001 1 (driven true)))) 1 true
                          0.2 0.4)))
    by (lazy; reflexivity).
  destruct (torque_within_steer_max _ _ _ MIN_STEER_SPEED
              ACCELERATION_DUE_TO_GRAVITY calc_curvature pid_update
              _check_saturation libm_pow true (CS 20) 2.7 params tt 0.001 1
              (llk 0.01) (driven true) _ _ _ _
              (fun c e o ff s fr => bench_pid_clamps c e o ff s fr)
              (conj eq_refl eq_refl) Hrun) as (Habs & Hsm & Hlim).
  split; [exact Habs|].
  split; [exact Hsm|].
  exact (Hlim bench_pid_keeps_limits).
Defined.

Lemma pid_error_setpoint_measurement_witness :
  (CarState.vEgo (CS 20) <? MIN_STEER_SPEED) = false
  /\ exists self' t log,
       probe echo_error 0.001 0 (llk 0.01) (driven false)
       = (self', Ok (t, 0, log))
       /\ t = - 0.30000000000000004
       /\ exists actual_curvature vEgo_sq,
            measured_curvature calc_curvature (driven false) (CS 20) 2.7
              params (llk 0.01) = Ok actual_curvature
            /\ Py.pow2 libm_pow 20 = Ok vEgo_sq
            /\ Log.error log
               = (0.001 * vEgo_sq + 200 * 0.001)
                 - (actual_curvature * vEgo_sq + 200 * actual_curvature)
            /\ exists c ff,
                 pid_called echo_error c
                   ((0.001 * vEgo_sq + 200 * 0.001)
                    - (actual_curvature * vEgo_sq + 200 * actual_curvature))
                   false ff 20 false (pid self') t.
Proof.
  split; [reflexivity|].
  eexists _, _, _. split; [lazy; reflexivity|].
  split; [reflexivity|].
  apply (pid_error_setpoint_measurement _ _ _ MIN_STEER_SPEED
           ACCELERATION_DUE_TO_GRAVITY calc_curvature echo_error
           _check_saturation libm_pow (CS 20) 2.7 params tt 0.001 0 (llk 0.01)
           (driven false) _ _ 0 _ eq_refl).
  lazy; reflexivity.
Defined.

(** C6 as stated fails in its last clause: the error passed to the PID
    primitive is [setpoint - measurement] rounded as computed, which is not
    the binary64 value of [(desiredCurvature - actualCurvature) *
    (vEgo^2 + 200)]. *)
Lemma pid_error_not_factored :
  (CarState.vEgo (CS 20) <? MIN_STEER_SPEED) = false
  /\ measured_curvature calc_curvature (driven false) (CS 20) 2.7 params
       (llk 0.01) = Ok (0.01 / 20)
  /\ (exists self' log,
        probe echo_error 0.001 0 (llk 0.01) (driven false)
        = (self', Ok (- 0.30000000000000004, 0, log))
        /\ Log.error log = 0.30000000000000004)
  /\ Py.pow2 libm_pow 20 = Ok 400
  /\ (0.001 - 0.01 / 20) * (400 + 200) = 0.3
  /\ (0.30000000000000004 =? 0.3) = false.
Proof.
  split; [reflexivity|]. split; [reflexivity|].
  split; [eexists _, _; split; lazy; reflexivity|].
  repeat split.
Qed.

Lemma friction_divisor_default_kf_witness :
  (CarState.vEgo (CS 20) <? MIN_STEER_SPEED) = false
  /\ exists self' t log,
       probe echo_feedforward 0.001 1 (llk 0.01) (driven true)
       = (self', Ok (t, 0, log))
       /\ t = - (0.001 * 400 - 0 * 9.8 + 0.5 / 1)
       /\ exists vEgo_sq friction_compensation c error,
            Py.pow2 libm_pow 20 = Ok vEgo_sq
            /\ NumpyFast.interp (1 * vEgo_sq)
                 [- JERK_THRESHOLD; JERK_THRESHOLD]
                 [- friction self'; friction self']
               = Ok friction_compensation
            /\ Py.truediv friction_compensation 1
               = Ok (friction_compensation / 1)
            /\ pid_called echo_feedforward c error false
                 ((0.001 * vEgo_sq - 0 * ACCELERATION_DUE_TO_GRAVITY)
                  + friction_compensation / 1)
                 20 false (pid self') t
            /\ (true = true -> (0.0002 <=? 0.001) = true ->
                Log.usingRightTune log = true)
            /\ friction self' = 0.5.
Proof.
  split; [reflexivity|].
  eexists _, _, _. split; [lazy; reflexivity|].
  split; [reflexivity|].
  apply (friction_divisor_default_kf _ _ _ MIN_STEER_SPEED
           ACCELERATION_DUE_TO_GRAVITY calc_curvature echo_feedforward
           _check_saturation libm_pow (CS 20) 2.7 params tt 0.001 1 (llk 0.01)
           (driven true) _ _ 0 _ eq_refl).
  lazy; reflexivity.
Defined.

(** C3.  The code on a tick the claim speaks of: split tune is enabled and
    the right-turn set is selected (friction 0.5, kf 2; the resync has put
    both into the cached friction and the live [k_f]), the jerk is above the
    threshold.  The feedforward handed to the PID primitive carries
    [0.5 / 1], the friction over the default set's [kf], where the claim has
    [0.5 / 2]. *)
Lemma friction_divisor_not_active_kf :
  exists self' log,
    probe echo_feedforward 0.001 1 (llk 0.01) (driven true)
    = (self', Ok (- 0.9, 0, log))
    /\ Log.usingRightTune log = true
    /\ Py.pow2 libm_pow 20 = Ok 400
    /\ (JERK_THRESHOLD <=? 1 * 400) = true
    /\ friction self' = 0.5
    /\ PID.k_f (pid self') = 2
    /\ Torque.kf (LateralTuning.torque
                    (CarParams.lateralTuningRight (CP self'))) = 2
    /\ Torque.kf (LateralTuning.torque
                    (CarParams.lateralTuning (CP self'))) = 1
    /\ 0.001 * 400 - 0 * 9.8 + 0.5 / 1 = 0.9
    /\ 0.001 * 400 - 0 * 9.8 + 0.5 / 2 = 0.65.
Proof.
  eexists _, _. split; [lazy; reflexivity|]. lazy. repeat split.
Qed.

Lemma update_total_witness :
  (0 <? MIN_STEER_SPEED) = true
  /\ (CarState.vEgo (CS 20) <? MIN_STEER_SPEED) || negb true = false
  /\ (Torque.kf (LateralTuning.torque
                   (CarParams.lateralTuning (CP (driven false)))) =? 0)
     = false
  /\ exists self' t log,
       cruise 0.001 0 (driven false) = (self', Ok (t, 0, log)).
Proof.
  do 3 (split; [reflexivity|]).
  apply (proj2 (proj2 (update_total _ _ _ MIN_STEER_SPEED
                         ACCELERATION_DUE_TO_GRAVITY calc_curvature
                         pid_update _check_saturation libm_pow true (CS 20) 2.7
                         params tt 0.001 0 (llk 0.01) (driven false)
                         eq_refl))).
  - reflexivity.
  - right. exists 0.01. reflexivity.
  - exists 400. reflexivity.
  - reflexivity.
Defined.

(** C9 as stated fails: an active tick at cruising speed, every input
    finite, raises [ZeroDivisionError] when the default tuning set's [kf] is
    zero. *)
Lemma update_raises_on_zero_kf :
  (0 <? MIN_STEER_SPEED) = true
  /\ (CarState.vEgo (CS 20) <? MIN_STEER_SPEED) = false
  /\ Torque.kf (LateralTuning.torque (CarParams.lateralTuning (CP zero_kf)))
     = 0
  /\ cruise 0.001 0 zero_kf = (zero_kf, Raise ZeroDivisionError).
Proof. repeat split. Qed.

Lemma split_flag_mirrors_configuration_witness :
  (CarState.vEgo (CS 20) <? MIN_STEER_SPEED) = false
  /\ lateralTuneSplit switched_off = true
  /\ exists self' t log,
       cruise 0.001 0 switched_off = (self', Ok (t, 0, log))
       /\ lateralTuneSplit self' = false.
Proof.
  do 2 (split; [reflexivity|]).
  eexists _, _, _. split; [lazy; reflexivity|].
  eapply (split_flag_mirrors_configuration _ _ _ MIN_STEER_SPEED
            ACCELERATION_DUE_TO_GRAVITY calc_curvature pid_update
            _check_saturation libm_pow (CS 20) 2.7 params tt 0.001 0 (llk 0.01)
            switched_off _ _ 0 _ eq_refl).
  lazy; reflexivity.
Defined.

Lemma update_raises_witness :
  (0 <? MIN_STEER_SPEED) = true
  /\ (CarState.vEgo (CS 20) <? MIN_STEER_SPEED) = false
  /\ step true (CS 20) 2.7 params tt 0.001 0
       (LiveLocationKalman.mk (Measurement.mk [0; 0])) (driven false)
     = (driven false, Raise IndexError)
  /\ step true (CS 1e200) 2.7 params tt 0.001 0 (llk 0.01) (driven false)
     = (driven false, Raise OverflowError)
  /\ cruise 0.001 0 zero_kf
     = (fst (select_tune zero_kf 0.001), Raise ZeroDivisionError).
Proof.
  do 2 (split; [reflexivity|]).
  split; [|split].
  - apply (proj1 (update_raises _ _ _ MIN_STEER_SPEED
                    ACCELERATION_DUE_TO_GRAVITY calc_curvature pid_update
                    _check_saturation libm_pow (CS 20) 2.7 params tt 0.001 0
                    (LiveLocationKalman.mk (Measurement.mk [0; 0]))
                    (driven false) eq_refl eq_refl)); reflexivity.
  - apply (proj1 (proj2 (update_raises _ _ _ MIN_STEER_SPEED
                           ACCELERATION_DUE_TO_GRAVITY calc_curvature
                           pid_update _check_saturation libm_pow (CS 1e200) 2.7
                           params tt 0.001 0 (llk 0.01) (driven false)
                           eq_refl eq_refl)));
      [right; discriminate | reflexivity].
  - apply (proj1 (proj2 (proj2
             (update_raises _ _ _ MIN_STEER_SPEED
                ACCELERATION_DUE_TO_GRAVITY calc_curvature pid_update
                _check_saturation libm_pow (CS 20) 2.7 params tt 0.001 0
                (llk 0.01) zero_kf eq_refl eq_refl))));
      [right; discriminate | discriminate | reflexivity].
Defined.

Lemma nan_speed_reaches_pid_witness :
  is_nan (CarState.vEgo (CS nan)) = true
  /\ exists self' t log,
       step true (CS nan) 2.7 params tt 0.001 0 (llk 0.01) (driven false)
       = (self', Ok (t, 0, log))
       /\ (CarState.vEgo (CS nan) <? MIN_STEER_SPEED) = false
       /\ Log.active log = true
       /\ is_nan (Log.error log) = true
       /\ exists c error ff,
            pid_called pid_update c error false ff nan false (pid self') t
            /\ is_nan error = true
            /\ is_nan ff = true.
Proof.
  split; [reflexivity|].
  eexists _, _, _. split; [lazy; reflexivity|].
  apply (nan_speed_reaches_pid _ _ _ MIN_STEER_SPEED
           ACCELERATION_DUE_TO_GRAVITY calc_curvature pid_update
           _check_saturation libm_pow (CS nan) 2.7 params tt 0.001 0 (llk 0.01)
           (driven false) _ _ 0 _ eq_refl).
  lazy; reflexivity.
Defined.

Lemma steering_angle_flag_lags_witness :
  use_steering_angle angle_retuned = false
  /\ Torque.useSteeringAngle
       (LateralTuning.torque (CarParams.lateralTuning (CP angle_retuned)))
     = true
  /\ (CarState.vEgo (CS 20) <? MIN_STEER_SPEED) = false
  /\ exists self' t log,
       cruise 0 0 angle_retuned = (self', Ok (t, 0, log))
       /\ use_steering_angle self' = true
       /\ exists yaw_rate vEgo_sq,
            nth_error
              (Measurement.value
                 (LiveLocationKalman.angularVelocityCalibrated (llk 0.01)))
              2 = Some yaw_rate
            /\ Py.pow2 libm_pow 20 = Ok vEgo_sq
            /\ Log.actualLateralAccel log = yaw_rate / 20 * vEgo_sq
            /\ Log.error log
               = (0 * vEgo_sq + 200 * 0)
                 - (yaw_rate / 20 * vEgo_sq + 200 * (yaw_rate / 20))
            /\ (true = true -> use_steering_angle self' = true).
Proof.
  do 3 (split; [reflexivity|]).
  eexists _, _, _. split; [lazy; reflexivity|].
  split; [reflexivity|].
  eapply (steering_angle_flag_lags _ _ _ MIN_STEER_SPEED
           ACCELERATION_DUE_TO_GRAVITY calc_curvature pid_update
           _check_saturation libm_pow (CS 20) 2.7 params tt 0 0 (llk 0.01)
           angle_retuned _ _ 0 _ eq_refl eq_refl).
  lazy; reflexivity.
Defined.

Lemma diagnostics_agree_witness :
  (CarState.vEgo (CS 20) <? MIN_STEER_SPEED) = false
  /\ exists self' t log,
       cruise 0.001 1 (driven true) = (self', Ok (t, 0, log))
       /\ Log.active log = true
       /\ Log.p log = PID.p (pid self') /\ Log.i log = PID.i (pid self')
       /\ Log.d log = PID.d (pid self') /\ Log.f log = PID.f (pid self')
       /\ Log.output log = t
       /\ 0 = 0
       /\ (sat self', Log.saturated log)
          = _check_saturation (sat (driven true))
              (steer_max (driven true) - abs t <? 1e-3) (CS 20).
Proof.
  split; [reflexivity|].
  eexists _, _, _. split; [lazy; reflexivity|].
  apply (diagnostics_agree _ _ _ MIN_STEER_SPEED
           ACCELERATION_DUE_TO_GRAVITY calc_curvature pid_update
           _check_saturation libm_pow (CS 20) 2.7 params tt 0.001 1 (llk 0.01)
           (driven true) _ _ 0 _ eq_refl).
  lazy; reflexivity.
Defined.

Lemma switch_off_resyncs_once_witness :
  CarParams.lateralTuneSplit (CP switched_off) = false
  /\ lateralTuneSplit switched_off = true
  /\ (CarState.vEgo (CS 20) <? MIN_STEER_SPEED) = false
  /\ CarParams.lateralTuneSplit (car_params false) = false
  /\ exists self1 t1 log1 self2 t2 log2,
       cruise 0.001 0 switched_off = (self1, Ok (t1, 0, log1))
       /\ cruise 0.001 0 (set_CP (car_params false) self1)
          = (self2, Ok (t2, 0, log2))
       /\ (exists error ff,
             pid_called pid_update (pid self1) error false ff 20 false
               (pid self2) t2)
       /\ friction self2 = friction self1
       /\ use_steering_angle self2 = use_steering_angle self1
       /\ PID.k_f (pid self2) = 2
       /\ Torque.kf (LateralTuning.torque
                       (CarParams.lateralTuning (CP self2))) = 1.
Proof.
  do 4 (split; [reflexivity|]).
  eexists _, _, _, _, _, _. split; [lazy; reflexivity|].
  split; [lazy; reflexivity|].
  assert (Hrun := switch_off_resyncs_once _ _ _ MIN_STEER_SPEED
            ACCELERATION_DUE_TO_GRAVITY calc_curvature pid_update
            _check_saturation libm_pow (CS 20) 2.7 params tt 0.001 0 (llk 0.01)
            switched_off (fst (cruise 0.001 0 switched_off)) (- 1) 0).
  specialize (Hrun _ (car_params false) (CS 20) 2.7 params tt 0.001 0
                (llk 0.01) _ _ 0 _ eq_refl eq_refl eq_refl
                ltac:(lazy; reflexivity) eq_refl eq_refl
                ltac:(lazy; reflexivity)).
  destruct Hrun as (Hcall & Hfr & Hang).
  split; [exact Hcall|]. split; [exact Hfr|]. split; [exact Hang|].
  split; reflexivity.
Defined.

End BenchRuns.
